(** * Irrigation controller: sensor classification, pump driver, action decider

    A shallow embedding of [states.h], [analog_sensors.h], [pump_driver.h] and
    [action_decider.h], followed by the properties of the decision cascade,
    of the threshold ladders and of the pump driver. *)

From Stdlib Require Import ZArith Lia Bool List String Ascii.
From Stdlib Require Import Floats.SpecFloat.
Import ListNotations.
Local Open Scope Z_scope.

(** ** Target platform

    The sketch is compiled for an Arduino board.  What the board header
    fixes and the sources only name is gathered here: the width of [int]
    and [unsigned int] (at least 16 bits in C++) and the numbers behind the
    analog pin macros [A1], [A2], [A3] and [A6]. *)

Class Platform : Type := {
  int_bits : Z;
  int_bits_min : 16 <= int_bits;
  A1 : Z;
  A2 : Z;
  A3 : Z;
  A6 : Z
}.

(** AVR boards (Nano, Uno): 16-bit [int], analog pins numbered from 14. *)
Definition avr : Platform :=
  {| int_bits := 16; int_bits_min := proj1 (Z.leb_le 16 16) eq_refl;
     A1 := 15; A2 := 16; A3 := 17; A6 := 20 |}.

(** A board with a 32-bit core and 32-bit [int]. *)
Definition arm32 : Platform :=
  {| int_bits := 32; int_bits_min := proj1 (Z.leb_le 16 32) eq_refl;
     A1 := 15; A2 := 16; A3 := 17; A6 := 20 |}.

(** ** Integer conversions

    Values of [int] and [unsigned int] are integers in [Z]; a conversion
    into either type wraps modulo [2 ^ int_bits]. *)

(** Conversion to [unsigned int]. *)
Definition to_unsigned `{Platform} (v : Z) : Z := v mod 2 ^ int_bits.

(** Conversion to [int]: two's complement, a value out of range wrapping
    as GCC and C++20 have it. *)
Definition to_int `{Platform} (v : Z) : Z :=
  (v + 2 ^ (int_bits - 1)) mod 2 ^ int_bits - 2 ^ (int_bits - 1).

(** Conversion to [unsigned short] (16 bits), the type of every stored
    pin number. *)
Definition to_ushort (v : Z) : Z := v mod 2 ^ 16.

(** ** states.h *)

Definition INT32_MAX : Z := 2147483647.

Inductive SensorStateLevel : Type :=
| TOO_LOW
| DANGER_LOW
| OK
| DANGER_HIGH
| TOO_HIGH
| INVALID_STATE.

(** The enumerators' declared values. *)
Definition enum_value (s : SensorStateLevel) : Z :=
  match s with
  | TOO_LOW => 0
  | DANGER_LOW => 1
  | OK => 2
  | DANGER_HIGH => 3
  | TOO_HIGH => 4
  | INVALID_STATE => INT32_MAX
  end.

(** [a == b] on two levels: both sides are promoted to the enumeration's
    underlying type, which holds every declared value unchanged. *)
Definition level_eqb (a b : SensorStateLevel) : bool :=
  enum_value a =? enum_value b.

(** [(int)s], the cast the decider applies before an ordinal comparison. *)
Definition as_int `{Platform} (s : SensorStateLevel) : Z :=
  to_int (enum_value s).

(** [(int)a <= (int)b] and [(int)a >= (int)b], the two comparisons the
    decider writes. *)
Definition level_leb `{Platform} (a b : SensorStateLevel) : bool :=
  as_int a <=? as_int b.

Definition level_geb `{Platform} (a b : SensorStateLevel) : bool :=
  as_int a >=? as_int b.

(** [(int)a < (int)b], for stating how two levels compare. *)
Definition level_ltb `{Platform} (a b : SensorStateLevel) : bool :=
  as_int a <? as_int b.

(** The five levels that carry an order. *)
Definition ordinal_levels : list SensorStateLevel :=
  [TOO_LOW; DANGER_LOW; OK; DANGER_HIGH; TOO_HIGH].

(** [s] lies in the range [lo .. hi] of the declared order. *)
Definition in_ordinal_range (lo hi s : SensorStateLevel) : Prop :=
  enum_value lo <= enum_value s <= enum_value hi.

(** ** Hardware

    The board is seen through [analogRead], [pinMode] and [digitalWrite]:
    a reading per analog channel, and the sequence of output commands
    issued so far (oldest first). *)

Inductive PinLevel : Type := LOW | HIGH.

Inductive HwEvent : Type :=
| PinModeOutput (pin : Z)
| DigitalWrite (pin : Z) (level : PinLevel).

Record Hardware : Type := {
  analogRead : Z -> Z;
  outputs : list HwEvent
}.

Definition emit (e : HwEvent) (hw : Hardware) : Hardware :=
  {| analogRead := analogRead hw; outputs := outputs hw ++ [e] |}.

(** ** analog_sensors.h *)

Record AnalogSensor : Type := { PIN_NUMBER : Z }.

Definition AnalogSensor_new (pin : Z) : AnalogSensor :=
  {| PIN_NUMBER := to_ushort pin |}.

(** [read_raw]: the [int] returned by [analogRead], as [unsigned int]. *)
Definition read_raw `{Platform} (hw : Hardware) (s : AnalogSensor) : Z :=
  to_unsigned (analogRead hw (PIN_NUMBER s)).

(** *** Single precision arithmetic, for the pH probe *)

Definition f32_prec : Z := 24.
Definition f32_emax : Z := 128.

Definition f32_of_Z (z : Z) : spec_float :=
  binary_normalize f32_prec f32_emax z 0 false.

Definition f32_add : spec_float -> spec_float -> spec_float :=
  SFadd f32_prec f32_emax.

Definition f32_sub : spec_float -> spec_float -> spec_float :=
  SFsub f32_prec f32_emax.

Definition f32_mul : spec_float -> spec_float -> spec_float :=
  SFmul f32_prec f32_emax.

Definition f32_div : spec_float -> spec_float -> spec_float :=
  SFdiv f32_prec f32_emax.

(** [read_mapped_float]: [(raw / 1023.0f) * (max - min) + min]. *)
Definition read_mapped_float `{Platform} (hw : Hardware) (s : AnalogSensor)
  (min max : spec_float) : spec_float :=
  let raw := f32_of_Z (read_raw hw s) in
  f32_add (f32_mul (f32_div raw (f32_of_Z 1023)) (f32_sub max min)) min.

Module SoilMoistureSensor.

Definition THRESH_TOO_WET : Z := 350.
Definition THRESH_DANGEROUSLY_WET : Z := 450.
Definition THRESH_OK : Z := 550.
Definition THRESH_DANGEROUSLY_DRY : Z := 650.
Definition THRESH_TOO_DRY : Z := 1023.

(** The ladder of [get_state], on [unsigned int value = read_raw()]. *)
Definition classify (value : Z) : SensorStateLevel :=
  if value <=? THRESH_TOO_WET then TOO_HIGH
  else if value <=? THRESH_DANGEROUSLY_WET then DANGER_HIGH
  else if value <=? THRESH_OK then OK
  else if value <=? THRESH_DANGEROUSLY_DRY then DANGER_LOW
  else if value <=? THRESH_TOO_DRY then TOO_LOW
  else INVALID_STATE.

Definition get_state `{Platform} (hw : Hardware) (s : AnalogSensor)
  : SensorStateLevel :=
  classify (read_raw hw s).

End SoilMoistureSensor.

Module PHSensor.

(** The single precision literals [5.8f], [6.1f], [7.0f], [7.5f], [14.0f]. *)
Definition PH_TOO_LOW : spec_float := S754_finite false 12163482 (-21).
Definition PH_DANGER_LOW : spec_float := S754_finite false 12792627 (-21).
Definition PH_OK : spec_float := S754_finite false 14680064 (-21).
Definition PH_DANGER_HIGH : spec_float := S754_finite false 15728640 (-21).
Definition PH_TOO_HIGH : spec_float := S754_finite false 14680064 (-20).

(** The ladder of [get_state], on the mapped [float value]. *)
Definition classify (value : spec_float) : SensorStateLevel :=
  if SFleb value PH_TOO_LOW then TOO_LOW
  else if SFleb value PH_DANGER_LOW then DANGER_LOW
  else if SFleb value PH_OK then OK
  else if SFleb value PH_DANGER_HIGH then DANGER_HIGH
  else if SFleb value PH_TOO_HIGH then TOO_HIGH
  else INVALID_STATE.

Definition get_state `{Platform} (hw : Hardware) (s : AnalogSensor)
  : SensorStateLevel :=
  classify (read_mapped_float hw s (f32_of_Z 0) (f32_of_Z 14)).

End PHSensor.

Module WaterLevelSensor.

Definition THRESH_OK : Z := 1024.
Definition THRESH_DANGER_LOW : Z := 450.
Definition THRESH_DRY : Z := 200.

(** The ladder of [get_state] on the result [raw] of [read_raw()]:
    [int val = raw] converts to [int], and each [val <= THRESH_x]
    compares an [int] with an [unsigned int], so [val] is converted
    back to [unsigned int] first. *)
Definition classify `{Platform} (raw : Z) : SensorStateLevel :=
  let val := to_int raw in
  if to_unsigned val <=? THRESH_DRY then TOO_LOW
  else if to_unsigned val <=? THRESH_DANGER_LOW then DANGER_LOW
  else if to_unsigned val <=? THRESH_OK then OK
  else INVALID_STATE.

Definition get_state `{Platform} (hw : Hardware) (s : AnalogSensor)
  : SensorStateLevel :=
  classify (read_raw hw s).

End WaterLevelSensor.

Module WaterDetectionSensor.

Definition THRESH_ON : Z := 1024.
Definition THRESH_OFF : Z := 50.

(** Same conversions as in the water level sensor. *)
Definition classify `{Platform} (raw : Z) : SensorStateLevel :=
  let val := to_int raw in
  if to_unsigned val <=? THRESH_OFF then OK
  else if to_unsigned val <=? THRESH_ON then TOO_HIGH
  else INVALID_STATE.

Definition get_state `{Platform} (hw : Hardware) (s : AnalogSensor)
  : SensorStateLevel :=
  classify (read_raw hw s).

End WaterDetectionSensor.

(** ** pump_driver.h *)

Record PumpDriver : Type := {
  pin : Z;
  on : bool
}.

(** The constructor: output mode, then a first write of [LOW]. *)
Definition PumpDriver_new (p : Z) (hw : Hardware) : PumpDriver * Hardware :=
  let p := to_ushort p in
  ({| pin := p; on := false |},
   emit (DigitalWrite p LOW) (emit (PinModeOutput p) hw)).

Definition turn_on (d : PumpDriver) (hw : Hardware) : PumpDriver * Hardware :=
  ({| pin := pin d; on := true |}, emit (DigitalWrite (pin d) HIGH) hw).

Definition turn_off (d : PumpDriver) (hw : Hardware) : PumpDriver * Hardware :=
  ({| pin := pin d; on := false |}, emit (DigitalWrite (pin d) LOW) hw).

Definition is_on (d : PumpDriver) : bool := on d.

(** ** action_decider.h *)

Record ActionDecider : Type := {
  sm : AnalogSensor;
  wl : AnalogSensor;
  wd : AnalogSensor;
  pd : PumpDriver
}.

Definition SM_PIN `{Platform} : Z := to_unsigned A1.
Definition WL_PIN `{Platform} : Z := to_unsigned A3.
Definition WD_PIN `{Platform} : Z := to_unsigned A6.
Definition PD_PIN `{Platform} : Z := to_unsigned 2.

(** The channel of the pH probe; its member and its initialiser are
    commented out in the class. *)
Definition PH_PIN `{Platform} : Z := to_unsigned A2.

Definition ActionDecider_new `{Platform} (hw : Hardware)
  : ActionDecider * Hardware :=
  let (d, hw') := PumpDriver_new PD_PIN hw in
  ({| sm := AnalogSensor_new SM_PIN;
      wl := AnalogSensor_new WL_PIN;
      wd := AnalogSensor_new WD_PIN;
      pd := d |}, hw').

(** The [return] statements of [DecideAction], in program order. *)
Inductive ReturnSite : Type :=
| InvalidStateVeto
| DryTankVeto
| PhVeto
| StandardRun
| BoneDryOverride
| DefaultOff.

(** The value each [return] statement yields. *)
Definition returned (r : ReturnSite) : bool :=
  match r with
  | StandardRun | BoneDryOverride => true
  | InvalidStateVeto | DryTankVeto | PhVeto | DefaultOff => false
  end.

(** The rule cascade of [DecideAction] over its four local states. *)
Definition decide `{Platform}
  (sm_state ph_state wl_state wd_state : SensorStateLevel) : bool :=
  if level_eqb sm_state INVALID_STATE
     || level_eqb ph_state INVALID_STATE
     || level_eqb wl_state INVALID_STATE
     || level_eqb wd_state INVALID_STATE
  then false
  else if level_eqb wl_state TOO_LOW then false
  else if level_eqb ph_state TOO_LOW || level_eqb ph_state TOO_HIGH
  then false
  else if level_eqb wd_state OK
          && (level_geb wl_state OK && level_leb wl_state TOO_HIGH)
          && level_leb sm_state DANGER_HIGH
  then true
  else if (level_eqb wd_state OK || level_eqb wd_state TOO_HIGH)
          && level_eqb sm_state TOO_LOW
  then true
  else false.

(** The same cascade, yielding the [return] statement that is reached. *)
Definition decide_site `{Platform}
  (sm_state ph_state wl_state wd_state : SensorStateLevel) : ReturnSite :=
  if level_eqb sm_state INVALID_STATE
     || level_eqb ph_state INVALID_STATE
     || level_eqb wl_state INVALID_STATE
     || level_eqb wd_state INVALID_STATE
  then InvalidStateVeto
  else if level_eqb wl_state TOO_LOW then DryTankVeto
  else if level_eqb ph_state TOO_LOW || level_eqb ph_state TOO_HIGH
  then PhVeto
  else if level_eqb wd_state OK
          && (level_geb wl_state OK && level_leb wl_state TOO_HIGH)
          && level_leb sm_state DANGER_HIGH
  then StandardRun
  else if (level_eqb wd_state OK || level_eqb wd_state TOO_HIGH)
          && level_eqb sm_state TOO_LOW
  then BoneDryOverride
  else DefaultOff.

(** [DecideAction]: three sensors are read; the pH state is the constant
    [OK], the pH sensor being commented out. *)
Definition DecideAction `{Platform} (ad : ActionDecider) (hw : Hardware)
  : bool :=
  let sm_state := SoilMoistureSensor.get_state hw (sm ad) in
  let ph_state := OK in
  let wl_state := WaterLevelSensor.get_state hw (wl ad) in
  let wd_state := WaterDetectionSensor.get_state hw (wd ad) in
  decide sm_state ph_state wl_state wd_state.

(** The [return] statement [DecideAction] reaches. *)
Definition DecideAction_site `{Platform} (ad : ActionDecider) (hw : Hardware)
  : ReturnSite :=
  let sm_state := SoilMoistureSensor.get_state hw (sm ad) in
  let ph_state := OK in
  let wl_state := WaterLevelSensor.get_state hw (wl ad) in
  let wd_state := WaterDetectionSensor.get_state hw (wd ad) in
  decide_site sm_state ph_state wl_state wd_state.

Definition set_pd (ad : ActionDecider) (d : PumpDriver) : ActionDecider :=
  {| sm := sm ad; wl := wl ad; wd := wd ad; pd := d |}.

(** [DecidePump]: the decision, the decider and the board afterwards. *)
Definition DecidePump `{Platform} (ad : ActionDecider) (hw : Hardware)
  : bool * ActionDecider * Hardware :=
  if DecideAction ad hw then
    let (d, hw') := turn_on (pd ad) hw in (true, set_pd ad d, hw')
  else
    let (d, hw') := turn_off (pd ad) hw in (false, set_pd ad d, hw').

Definition TurnOffPump (ad : ActionDecider) (hw : Hardware)
  : ActionDecider * Hardware :=
  let (d, hw') := turn_off (pd ad) hw in (set_pd ad d, hw').

(** ** Sample states

    A board whose analog channels carry the given readings and which has
    issued no output yet, and the decider as the sketch constructs it. *)

Definition bench `{Platform} (sm_raw ph_raw wl_raw wd_raw : Z) : Hardware :=
  {| analogRead := fun channel =>
                     if channel =? SM_PIN then sm_raw
                     else if channel =? PH_PIN then ph_raw
                     else if channel =? WL_PIN then wl_raw
                     else if channel =? WD_PIN then wd_raw
                     else 0;
     outputs := [] |}.

Definition the_decider `{Platform} : ActionDecider :=
  fst (ActionDecider_new (bench 0 0 0 0)).

(** ** Reporting over the serial line

    What a [Serial.print] call is given: a text or a number; [println]
    is given a line. *)

Inductive SerialItem : Type :=
| Text (s : string)
| Number (n : Z)
| Line (s : string).

(** The text of one line feed. *)
Definition LF : string := String "010"%char EmptyString.

(** [AnalogSensor::state_to_str]. *)
Definition state_to_str (state : SensorStateLevel) : string :=
  match state with
  | TOO_LOW => "TOO_LOW"
  | DANGER_LOW => "DANGER_LOW"
  | OK => "OK"
  | DANGER_HIGH => "DANGER_HIGH"
  | TOO_HIGH => "TOO_HIGH"
  | INVALID_STATE => "INVALID_STATE"
  end.

(** The body the four [SerialPrint] overrides share, after their two
    reads: [raw] is the [int] the reading was stored in. *)
Definition print_reading (title : string) (raw : Z) (state : SensorStateLevel)
  : list SerialItem :=
  [Text (title ++ LF); Text "Raw sensor value: "; Number raw; Text LF;
   Text "State: "; Text (state_to_str state); Text LF].

Definition SoilMoistureSensor_SerialPrint `{Platform}
  (hw : Hardware) (s : AnalogSensor) : list SerialItem :=
  let raw := to_int (read_raw hw s) in
  let state := SoilMoistureSensor.get_state hw s in
  print_reading "Soil Moisture" raw state.

Definition PHSensor_SerialPrint `{Platform}
  (hw : Hardware) (s : AnalogSensor) : list SerialItem :=
  let raw := to_int (read_raw hw s) in
  let state := PHSensor.get_state hw s in
  print_reading "PH" raw state.

Definition WaterLevelSensor_SerialPrint `{Platform}
  (hw : Hardware) (s : AnalogSensor) : list SerialItem :=
  let raw := to_int (read_raw hw s) in
  let state := WaterLevelSensor.get_state hw s in
  print_reading "Water level" raw state.

Definition WaterDetectionSensor_SerialPrint `{Platform}
  (hw : Hardware) (s : AnalogSensor) : list SerialItem :=
  let raw := to_int (read_raw hw s) in
  let state := WaterDetectionSensor.get_state hw s in
  print_reading "Water detection" raw state.

(** [ActionDecider::PrintAll]. *)
Definition PrintAll `{Platform} (ad : ActionDecider) (hw : Hardware)
  : list SerialItem :=
  SoilMoistureSensor_SerialPrint hw (sm ad)
  ++ WaterLevelSensor_SerialPrint hw (wl ad)
  ++ WaterDetectionSensor_SerialPrint hw (wd ad)
  ++ [Text (LF ++ LF ++ "Pump is: ");
      Text (if is_on (pd ad) then " On" else "Off");
      Text (LF ++ LF ++ LF)].

(** ** Integer mapping

    [read_mapped_int] hands the reading to Arduino's [map], which the
    sources call and do not define; [map_call x lo hi] stands for the
    [long] that [map(x, 0, 1023, lo, hi)] returns.  The result is
    converted to the [unsigned int] the method returns. *)




(** ** Command sequences of the pump driver *)

Inductive PumpCommand : Type := TurnOn | TurnOff.

Definition commanded_level (c : PumpCommand) : PinLevel :=
  match c with TurnOn => HIGH | TurnOff => LOW end.

Definition commanded_on (c : PumpCommand) : bool :=
  match c with TurnOn => true | TurnOff => false end.

Definition pump_command (c : PumpCommand) (d : PumpDriver) (hw : Hardware)
  : PumpDriver * Hardware :=
  match c with
  | TurnOn => turn_on d hw
  | TurnOff => turn_off d hw
  end.

Fixpoint pump_commands (cs : list PumpCommand) (d : PumpDriver) (hw : Hardware)
  : PumpDriver * Hardware :=
  match cs with
  | [] => (d, hw)
  | c :: rest =>
      let (d', hw') := pump_command c d hw in pump_commands rest d' hw'
  end.

(** ** The sketch: [setup] and [loop]

    A run of the sketch is seen as the sequence of what it does to the
    outside: board commands, serial output and waits. *)

Inductive SketchEvent : Type :=
| Command (e : HwEvent)
| Printed (i : SerialItem)
| SerialBegin (baud : Z)
| Delay (ms : Z).

(** The commands a call has added to the board's log. *)
Definition issued (before after : Hardware) : list HwEvent :=
  skipn (List.length (outputs before)) (outputs after).

(** [const int] durations, in milliseconds. *)
Definition pump_on_time `{Platform} : Z := to_int (1000 * 10).
Definition after_water_delay `{Platform} : Z := to_int (1000 * 10).
Definition pump_off_delay `{Platform} : Z := to_int (1000 * 5).

Definition setup : list SketchEvent := [SerialBegin 9600; Delay 500].

(** One pass of [loop], the readings staying as they are during the pass. *)
Definition loop `{Platform} (ad : ActionDecider) (hw : Hardware)
  : ActionDecider * Hardware * list SketchEvent :=
  let '(pump, ad1, hw1) := DecidePump ad hw in
  let decided :=
    map Command (issued hw hw1) ++ map Printed (PrintAll ad1 hw1) in
  if pump then
    let '(ad2, hw2) := TurnOffPump ad1 hw1 in
    (ad2, hw2,
     decided
     ++ [Printed (Line "Pump turning on"); Delay pump_on_time;
         Printed (Line "Pump turning off")]
     ++ map Command (issued hw1 hw2)
     ++ [Printed (Line "Initiating after-watering delay");
         Delay after_water_delay;
         Printed (Line ("Ready for next decision" ++ LF ++ LF ++ LF ++ LF ++ LF))])
  else
    (ad1, hw1,
     decided
     ++ [Printed (Line "Pump staying off");
         Printed (Line "Initiating pump-off delay");
         Delay pump_off_delay;
         Printed (Line ("Ready for next decision" ++ LF ++ LF ++ LF ++ LF ++ LF))]).

(** The board with new readings on its analog channels. *)
Definition with_readings (r : Z -> Z) (hw : Hardware) : Hardware :=
  {| analogRead := r; outputs := outputs hw |}.

(** Successive passes of [loop], one per element of [readings]: what the
    channels carry when the pass begins. *)
Fixpoint passes `{Platform} (readings : list (Z -> Z))
  (ad : ActionDecider) (hw : Hardware)
  : ActionDecider * Hardware * list SketchEvent :=
  match readings with
  | [] => (ad, hw, [])
  | r :: rest =>
      let '(ad1, hw1, t1) := loop ad (with_readings r hw) in
      let '(ad2, hw2, t2) := passes rest ad1 hw1 in
      (ad2, hw2, t1 ++ t2)
  end.

(** The whole program: the global decider is constructed, [setup] runs,
    then [loop] passes follow. *)
Definition sketch `{Platform} (readings : list (Z -> Z)) (hw0 : Hardware)
  : ActionDecider * Hardware * list SketchEvent :=
  let (ad, hw) := ActionDecider_new hw0 in
  let '(ad', hw', t) := passes readings ad hw in
  (ad', hw', map Command (issued hw0 hw) ++ setup ++ t).


(** The writes to a pin along a trace. *)
Fixpoint writes_to (p : Z) (t : list SketchEvent) : list PinLevel :=
  match t with
  | [] => []
  | Command (DigitalWrite q level) :: rest =>
      if q =? p then level :: writes_to p rest else writes_to p rest
  | _ :: rest => writes_to p rest
  end.

(** The waits along a trace. *)
Fixpoint delays (t : list SketchEvent) : list Z :=
  match t with
  | [] => []
  | Delay ms :: rest => ms :: delays rest
  | _ :: rest => delays rest
  end.

(** * Properties *)

(** ** Integer conversions *)

Lemma int_range_min `{Platform} : 2 ^ 15 <= 2 ^ (int_bits - 1).
Proof.
  apply Z.pow_le_mono_r; [lia | pose proof int_bits_min; lia].
Qed.

Lemma int_modulus `{Platform} : 2 ^ int_bits = 2 * 2 ^ (int_bits - 1).
Proof.
  pose proof int_bits_min.
  rewrite <- Z.pow_succ_r by lia. f_equal. lia.
Qed.

Lemma to_int_in_range `{Platform} (v : Z) :
  - 2 ^ (int_bits - 1) <= v < 2 ^ (int_bits - 1) -> to_int v = v.
Proof.
  intros Hv. unfold to_int. rewrite int_modulus.
  rewrite Z.mod_small by lia. lia.
Qed.

Lemma to_int_small `{Platform} (v : Z) : 0 <= v < 32768 -> to_int v = v.
Proof.
  intros Hv. apply to_int_in_range.
  pose proof int_range_min. change (2 ^ 15) with 32768 in *. lia.
Qed.

Lemma to_unsigned_small `{Platform} (v : Z) :
  0 <= v < 65536 -> to_unsigned v = v.
Proof.
  intros Hv. unfold to_unsigned. apply Z.mod_small.
  pose proof int_range_min. pose proof int_modulus.
  change (2 ^ 15) with 32768 in *. lia.
Qed.

Lemma to_unsigned_range `{Platform} (v : Z) :
  0 <= to_unsigned v < 2 ^ int_bits.
Proof.
  unfold to_unsigned. apply Z.mod_pos_bound.
  pose proof int_range_min. pose proof int_modulus.
  change (2 ^ 15) with 32768 in *. lia.
Qed.

Lemma to_unsigned_id `{Platform} (v : Z) :
  0 <= v < 2 ^ int_bits -> to_unsigned v = v.
Proof. intros Hv. unfold to_unsigned. now apply Z.mod_small. Qed.

(** An [unsigned int] stored in an [int] and compared as [unsigned int]
    again is the value it was. *)
Lemma to_unsigned_to_int `{Platform} (v : Z) :
  to_unsigned (to_int v) = to_unsigned v.
Proof.
  unfold to_unsigned, to_int.
  rewrite Zminus_mod_idemp_l. f_equal. lia.
Qed.

(** [INT32_MAX] survives the cast where [int] has 32 bits or more... *)
Lemma to_int_INT32_MAX_wide `{Platform} :
  32 <= int_bits -> to_int INT32_MAX = INT32_MAX.
Proof.
  intros Hw. apply to_int_in_range.
  assert (2 ^ 31 <= 2 ^ (int_bits - 1)) by (apply Z.pow_le_mono_r; lia).
  unfold INT32_MAX. change (2 ^ 31) with 2147483648 in *. lia.
Qed.

(** ... and wraps to [-1] where [int] is narrower. *)
Lemma to_int_INT32_MAX_narrow `{Platform} :
  int_bits < 32 -> to_int INT32_MAX = -1.
Proof.
  intros Hw. pose proof int_bits_min as Hmin.
  unfold to_int.
  replace (INT32_MAX + 2 ^ (int_bits - 1))
    with (2 ^ (int_bits - 1) - 1 + 2 ^ (31 - int_bits) * 2 ^ int_bits).
  - rewrite Z_mod_plus_full.
    pose proof int_range_min. pose proof int_modulus.
    change (2 ^ 15) with 32768 in *.
    rewrite Z.mod_small by lia. lia.
  - rewrite <- Z.pow_add_r by lia.
    replace (31 - int_bits + int_bits) with 31 by lia.
    unfold INT32_MAX. change (2 ^ 31) with 2147483648. lia.
Qed.

(** ** Severity levels *)

Lemma level_eqb_eq (a b : SensorStateLevel) : level_eqb a b = true <-> a = b.
Proof.
  split.
  - destruct a, b; intros E; try reflexivity; discriminate E.
  - intros ->. apply Z.eqb_refl.
Qed.

Lemma level_eqb_neq (a b : SensorStateLevel) : a <> b -> level_eqb a b = false.
Proof.
  intros Hab. destruct (level_eqb a b) eqn:E; [|reflexivity].
  apply level_eqb_eq in E. contradiction.
Qed.

Lemma level_eqb_refl (a : SensorStateLevel) : level_eqb a a = true.
Proof. now apply level_eqb_eq. Qed.

(** On the five ordinal levels the cast to [int] is the declared value. *)
Lemma as_int_ordinal `{Platform} (s : SensorStateLevel) :
  s <> INVALID_STATE -> as_int s = enum_value s.
Proof.
  intros Hs. unfold as_int. apply to_int_small.
  destruct s; simpl; try lia. contradiction.
Qed.

Lemma as_int_TOO_LOW `{Platform} : as_int TOO_LOW = 0.
Proof. now rewrite as_int_ordinal. Qed.

Lemma as_int_DANGER_LOW `{Platform} : as_int DANGER_LOW = 1.
Proof. now rewrite as_int_ordinal. Qed.

Lemma as_int_OK `{Platform} : as_int OK = 2.
Proof. now rewrite as_int_ordinal. Qed.

Lemma as_int_DANGER_HIGH `{Platform} : as_int DANGER_HIGH = 3.
Proof. now rewrite as_int_ordinal. Qed.

Lemma as_int_TOO_HIGH `{Platform} : as_int TOO_HIGH = 4.
Proof. now rewrite as_int_ordinal. Qed.

Create Rewrite HintDb as_int.

#[export] Hint Rewrite @as_int_TOO_LOW @as_int_DANGER_LOW @as_int_OK
  @as_int_DANGER_HIGH @as_int_TOO_HIGH : as_int.

Lemma as_int_INVALID_STATE_wide `{Platform} :
  32 <= int_bits -> as_int INVALID_STATE = INT32_MAX.
Proof. apply to_int_INT32_MAX_wide. Qed.

Lemma as_int_INVALID_STATE_narrow `{Platform} :
  int_bits < 32 -> as_int INVALID_STATE = -1.
Proof. apply to_int_INT32_MAX_narrow. Qed.

Lemma ordinal_levels_spec (s : SensorStateLevel) :
  In s ordinal_levels <-> s <> INVALID_STATE.
Proof.
  unfold ordinal_levels. split.
  - intros Hin ->. simpl in Hin. intuition discriminate.
  - intros Hs. destruct s; simpl; auto 6. contradiction.
Qed.

(** ** The rule cascade *)

(** Splits on every condition of the cascade, outermost first. *)
Ltac split_cascade :=
  repeat match goal with
         | |- context [if ?c then _ else _] => destruct c eqn:?
         end.

(** The decision is the value of the [return] statement that is reached. *)
Lemma decide_returned `{Platform} (sm_state ph_state wl_state wd_state : SensorStateLevel) :
  decide sm_state ph_state wl_state wd_state
  = returned (decide_site sm_state ph_state wl_state wd_state).
Proof. unfold decide, decide_site. split_cascade; reflexivity. Qed.

Lemma DecideAction_returned `{Platform} (ad : ActionDecider) (hw : Hardware) :
  DecideAction ad hw = returned (DecideAction_site ad hw).
Proof. apply decide_returned. Qed.

(** Rule 1 fires exactly on an invalid input. *)
Lemma decide_site_invalid `{Platform} (sm_state ph_state wl_state wd_state : SensorStateLevel) :
  decide_site sm_state ph_state wl_state wd_state = InvalidStateVeto
  <-> (sm_state = INVALID_STATE \/ ph_state = INVALID_STATE
       \/ wl_state = INVALID_STATE \/ wd_state = INVALID_STATE).
Proof.
  unfold decide_site.
  destruct (level_eqb sm_state INVALID_STATE || level_eqb ph_state INVALID_STATE
            || level_eqb wl_state INVALID_STATE || level_eqb wd_state INVALID_STATE)
    eqn:E.
  - split; [intros _|reflexivity].
    rewrite !orb_true_iff, !level_eqb_eq in E. tauto.
  - rewrite !orb_false_iff in E. destruct E as [[[E1 E2] E3] E4].
    split.
    + split_cascade; discriminate.
    + intros [-> | [-> | [-> | ->]]]; rewrite level_eqb_refl in *; discriminate.
Qed.

(** Evaluates the cascade on levels that are all ordinal constructors. *)
Ltac run_cascade :=
  unfold decide, decide_site, level_geb, level_leb, level_ltb;
  autorewrite with as_int; reflexivity.

(** C1. Invalid-state veto: whenever at least one of the four severity
    inputs of the rule cascade is [INVALID_STATE] the decision is [false];
    so is the decision of [DecideAction] whenever one of its three sensors
    reports [INVALID_STATE]; and soil moisture [OK], pH [INVALID_STATE],
    water level [OK], water detection [OK] yields [false]. *)
Theorem invalid_state_veto `{Platform} :
  (forall sm_state ph_state wl_state wd_state : SensorStateLevel,
      sm_state = INVALID_STATE \/ ph_state = INVALID_STATE
      \/ wl_state = INVALID_STATE \/ wd_state = INVALID_STATE ->
      decide sm_state ph_state wl_state wd_state = false)
  /\ (forall (ad : ActionDecider) (hw : Hardware),
         SoilMoistureSensor.get_state hw (sm ad) = INVALID_STATE
         \/ WaterLevelSensor.get_state hw (wl ad) = INVALID_STATE
         \/ WaterDetectionSensor.get_state hw (wd ad) = INVALID_STATE ->
         DecideAction ad hw = false)
  /\ decide OK INVALID_STATE OK OK = false.
Proof.
  assert (veto : forall a b c d,
             a = INVALID_STATE \/ b = INVALID_STATE
             \/ c = INVALID_STATE \/ d = INVALID_STATE ->
             decide a b c d = false).
  { intros a b c d Hinv. rewrite decide_returned.
    apply decide_site_invalid in Hinv. now rewrite Hinv. }
  split; [exact veto|split].
  - intros ad hw Hinv. unfold DecideAction. apply veto. tauto.
  - apply veto. right; left; reflexivity.
Qed.

Lemma invalid_state_veto_witness :
  ((INVALID_STATE = INVALID_STATE \/ DANGER_LOW = INVALID_STATE
    \/ OK = INVALID_STATE \/ TOO_HIGH = INVALID_STATE)
   /\ @decide avr INVALID_STATE DANGER_LOW OK TOO_HIGH = false)
  /\ ((@SoilMoistureSensor.get_state avr (@bench avr 600 0 500 2000)
         (sm (@the_decider avr)) = INVALID_STATE
       \/ @WaterLevelSensor.get_state avr (@bench avr 600 0 500 2000)
            (wl (@the_decider avr)) = INVALID_STATE
       \/ @WaterDetectionSensor.get_state avr (@bench avr 600 0 500 2000)
            (wd (@the_decider avr)) = INVALID_STATE)
      /\ @DecideAction avr (@the_decider avr) (@bench avr 600 0 500 2000)
         = false).
Proof.
  pose proof (@invalid_state_veto avr) as (Hrules & Hsensors & _).
  assert (H1 : INVALID_STATE = INVALID_STATE \/ DANGER_LOW = INVALID_STATE
               \/ OK = INVALID_STATE \/ TOO_HIGH = INVALID_STATE)
    by (left; reflexivity).
  assert (H2 : @SoilMoistureSensor.get_state avr (@bench avr 600 0 500 2000)
                 (sm (@the_decider avr)) = INVALID_STATE
               \/ @WaterLevelSensor.get_state avr (@bench avr 600 0 500 2000)
                    (wl (@the_decider avr)) = INVALID_STATE
               \/ @WaterDetectionSensor.get_state avr
                    (@bench avr 600 0 500 2000)
                    (wd (@the_decider avr)) = INVALID_STATE)
    by (right; right; reflexivity).
  split; split; try assumption.
  - exact (Hrules _ _ _ _ H1).
  - exact (Hsensors _ _ H2).
Defined.

(** C2. Standard run: with no input [INVALID_STATE], water level not
    [TOO_LOW], pH neither [TOO_LOW] nor [TOO_HIGH], water detection [OK],
    water level in the range [OK .. TOO_HIGH] and soil moisture in the range
    [TOO_LOW .. DANGER_HIGH], the decision is [true]; soil moisture
    [DANGER_HIGH], pH [OK], water level [TOO_HIGH], water detection [OK]
    yields [true]. *)
Theorem standard_run `{Platform} :
  (forall sm_state ph_state wl_state wd_state : SensorStateLevel,
      sm_state <> INVALID_STATE -> ph_state <> INVALID_STATE ->
      wl_state <> INVALID_STATE -> wd_state <> INVALID_STATE ->
      wl_state <> TOO_LOW ->
      ph_state <> TOO_LOW -> ph_state <> TOO_HIGH ->
      wd_state = OK ->
      in_ordinal_range OK TOO_HIGH wl_state ->
      in_ordinal_range TOO_LOW DANGER_HIGH sm_state ->
      decide sm_state ph_state wl_state wd_state = true)
  /\ decide DANGER_HIGH OK TOO_HIGH OK = true.
Proof.
  split; [|run_cascade].
  intros sm_state ph_state wl_state wd_state Hsm Hph Hwl _ Hdry Hlo Hhi ->
    [Hwl1 Hwl2] [Hsm1 Hsm2].
  destruct sm_state; try contradiction; try (simpl in Hsm2; lia);
    destruct ph_state; try contradiction;
    destruct wl_state; try contradiction; try (simpl in Hwl1; lia);
    run_cascade.
Qed.

Lemma standard_run_witness :
  (TOO_LOW <> INVALID_STATE /\ DANGER_LOW <> INVALID_STATE
   /\ OK <> INVALID_STATE /\ OK <> INVALID_STATE
   /\ OK <> TOO_LOW /\ DANGER_LOW <> TOO_LOW /\ DANGER_LOW <> TOO_HIGH
   /\ in_ordinal_range OK TOO_HIGH OK
   /\ in_ordinal_range TOO_LOW DANGER_HIGH TOO_LOW)
  /\ @decide avr TOO_LOW DANGER_LOW OK OK = true.
Proof.
  split.
  - unfold in_ordinal_range; simpl; repeat split; (discriminate || lia).
  - apply (proj1 (@standard_run avr)); try discriminate; try reflexivity;
      unfold in_ordinal_range; simpl; lia.
Defined.

(** C3. Bone-dry override: with no input [INVALID_STATE], water level not
    [TOO_LOW], pH neither [TOO_LOW] nor [TOO_HIGH], water detection [OK] or
    [TOO_HIGH], and soil moisture exactly [TOO_LOW], the decision is [true];
    soil moisture [TOO_LOW], water detection [TOO_HIGH], water level [OK],
    pH [OK] yields [true]. *)
Theorem bone_dry_override `{Platform} :
  (forall sm_state ph_state wl_state wd_state : SensorStateLevel,
      sm_state <> INVALID_STATE -> ph_state <> INVALID_STATE ->
      wl_state <> INVALID_STATE -> wd_state <> INVALID_STATE ->
      wl_state <> TOO_LOW ->
      ph_state <> TOO_LOW -> ph_state <> TOO_HIGH ->
      wd_state = OK \/ wd_state = TOO_HIGH ->
      sm_state = TOO_LOW ->
      decide sm_state ph_state wl_state wd_state = true)
  /\ decide TOO_LOW OK OK TOO_HIGH = true.
Proof.
  split; [|run_cascade].
  intros sm_state ph_state wl_state wd_state _ Hph Hwl _ Hdry Hlo Hhi Hwd ->.
  destruct Hwd as [-> | ->];
    destruct ph_state; try contradiction;
    destruct wl_state; try contradiction;
    run_cascade.
Qed.

Lemma bone_dry_override_witness :
  (TOO_LOW <> INVALID_STATE /\ DANGER_HIGH <> INVALID_STATE
   /\ DANGER_LOW <> INVALID_STATE /\ TOO_HIGH <> INVALID_STATE
   /\ DANGER_LOW <> TOO_LOW /\ DANGER_HIGH <> TOO_LOW
   /\ DANGER_HIGH <> TOO_HIGH
   /\ (TOO_HIGH = OK \/ TOO_HIGH = TOO_HIGH))
  /\ @decide arm32 TOO_LOW DANGER_HIGH DANGER_LOW TOO_HIGH = true.
Proof.
  split.
  - repeat split; try discriminate. right; reflexivity.
  - apply (proj1 (@bone_dry_override arm32)); try discriminate;
      try reflexivity. right; reflexivity.
Defined.

(** When the cascade goes past rule 1, its four inputs are ordinal levels. *)
Lemma past_rule_1 `{Platform} (sm_state ph_state wl_state wd_state : SensorStateLevel) :
  decide_site sm_state ph_state wl_state wd_state <> InvalidStateVeto ->
  In sm_state ordinal_levels /\ In ph_state ordinal_levels
  /\ In wl_state ordinal_levels /\ In wd_state ordinal_levels.
Proof.
  intros Hsite. rewrite !ordinal_levels_spec.
  rewrite decide_site_invalid in Hsite. tauto.
Qed.

(** C4 does not hold as stated: cast to [int],
    [INVALID_STATE] is above [TOO_LOW] where [int] has 32 bits, and below
    it where [int] has 16. *)
Lemma invalid_state_order_counterexample :
  ~ (@level_ltb arm32 INVALID_STATE TOO_LOW = false
     /\ @level_ltb arm32 TOO_LOW INVALID_STATE = false)
  /\ ~ (@level_ltb avr INVALID_STATE TOO_LOW = false
        /\ @level_ltb avr TOO_LOW INVALID_STATE = false).
Proof.
  split; intros [Hlt Hgt]; vm_compute in Hlt, Hgt; discriminate.
Qed.

(** C4, amended. [INVALID_STATE] is [INT32_MAX], and the comparison the
    decider uses (cast to [int]) orders it against the five ordinal levels:
    with an [int] of 32 bits or more it is strictly greater than each of
    them, and so fails both range checks of rule 4; with a narrower [int]
    the cast wraps to [-1] and it is strictly less than each of them.  It is
    told apart by [==], which it satisfies with no ordinal level, and rule 1
    returns on it, so that past rule 1 all four inputs are ordinal levels. *)
Theorem invalid_state_order `{Platform} :
  (forall L, In L ordinal_levels -> level_eqb L INVALID_STATE = false)
  /\ (32 <= int_bits ->
      (forall L, In L ordinal_levels ->
                 level_ltb L INVALID_STATE = true
                 /\ level_ltb INVALID_STATE L = false)
      /\ level_geb INVALID_STATE OK && level_leb INVALID_STATE TOO_HIGH = false
      /\ level_leb INVALID_STATE DANGER_HIGH = false)
  /\ (int_bits < 32 ->
      forall L, In L ordinal_levels ->
                level_ltb INVALID_STATE L = true
                /\ level_ltb L INVALID_STATE = false)
  /\ (forall sm_state ph_state wl_state wd_state,
         decide_site sm_state ph_state wl_state wd_state <> InvalidStateVeto ->
         In sm_state ordinal_levels /\ In ph_state ordinal_levels
         /\ In wl_state ordinal_levels /\ In wd_state ordinal_levels).
Proof.
  split; [|split; [|split]].
  - intros L HL. apply level_eqb_neq. now apply ordinal_levels_spec.
  - intros Hw. split; [|split].
    + intros L HL. apply ordinal_levels_spec in HL.
      unfold level_ltb. rewrite as_int_INVALID_STATE_wide by assumption.
      rewrite (as_int_ordinal L) by assumption.
      destruct L; try contradiction; split; reflexivity.
    + unfold level_geb, level_leb.
      rewrite as_int_INVALID_STATE_wide by assumption.
      autorewrite with as_int. reflexivity.
    + unfold level_leb.
      rewrite as_int_INVALID_STATE_wide by assumption.
      autorewrite with as_int. reflexivity.
  - intros Hw L HL. apply ordinal_levels_spec in HL.
    unfold level_ltb. rewrite as_int_INVALID_STATE_narrow by assumption.
    rewrite (as_int_ordinal L) by assumption.
    destruct L; try contradiction; split; reflexivity.
  - apply @past_rule_1.
Qed.

Lemma invalid_state_order_witness :
  ((32 <= @int_bits arm32 /\ In DANGER_HIGH ordinal_levels)
   /\ @level_ltb arm32 DANGER_HIGH INVALID_STATE = true
   /\ @level_ltb arm32 INVALID_STATE DANGER_HIGH = false)
  /\ ((@int_bits avr < 32 /\ In DANGER_HIGH ordinal_levels)
      /\ @level_ltb avr INVALID_STATE DANGER_HIGH = true
      /\ @level_ltb avr DANGER_HIGH INVALID_STATE = false)
  /\ (@decide_site avr TOO_LOW OK OK TOO_HIGH <> InvalidStateVeto
      /\ In TOO_LOW ordinal_levels /\ In OK ordinal_levels
      /\ In OK ordinal_levels /\ In TOO_HIGH ordinal_levels).
Proof.
  assert (Hwide : 32 <= @int_bits arm32) by (simpl; lia).
  assert (Hnarrow : @int_bits avr < 32) by (simpl; lia).
  assert (HL : In DANGER_HIGH ordinal_levels) by (simpl; tauto).
  assert (Hsite : @decide_site avr TOO_LOW OK OK TOO_HIGH <> InvalidStateVeto)
    by (vm_compute; discriminate).
  pose proof (@invalid_state_order arm32) as (_ & Hgt & _ & _).
  pose proof (@invalid_state_order avr) as (_ & _ & Hlt & Hpast).
  split; [|split].
  - split; [split; assumption|]. exact (proj1 (Hgt Hwide) DANGER_HIGH HL).
  - split; [split; assumption|]. exact (Hlt Hnarrow DANGER_HIGH HL).
  - split; [assumption|]. exact (Hpast TOO_LOW OK OK TOO_HIGH Hsite).
Defined.

(** ** Threshold ladders *)

Lemma raw_round_trip `{Platform} (raw : Z) :
  0 <= raw < 2 ^ int_bits -> to_unsigned (to_int raw) = raw.
Proof.
  intros Hraw. rewrite to_unsigned_to_int. now apply to_unsigned_id.
Qed.

Lemma read_raw_range `{Platform} (hw : Hardware) (s : AnalogSensor) :
  0 <= read_raw hw s < 2 ^ int_bits.
Proof. apply to_unsigned_range. Qed.

(** Unfolds a ladder and turns its boolean tests into (in)equalities. *)
Ltac ladder :=
  repeat match goal with
         | |- context [?a <=? ?b] => destruct (Z.leb_spec a b)
         end;
  try reflexivity; try lia.

Lemma soil_moisture_classify_first (value : Z) :
  value <= SoilMoistureSensor.THRESH_TOO_WET ->
  SoilMoistureSensor.classify value = TOO_HIGH.
Proof.
  unfold SoilMoistureSensor.classify, SoilMoistureSensor.THRESH_TOO_WET.
  intros Hv. ladder.
Qed.

Lemma soil_moisture_classify_above (value : Z) :
  SoilMoistureSensor.THRESH_TOO_DRY < value ->
  SoilMoistureSensor.classify value = INVALID_STATE.
Proof.
  unfold SoilMoistureSensor.classify, SoilMoistureSensor.THRESH_TOO_DRY,
    SoilMoistureSensor.THRESH_TOO_WET, SoilMoistureSensor.THRESH_DANGEROUSLY_WET,
    SoilMoistureSensor.THRESH_OK, SoilMoistureSensor.THRESH_DANGEROUSLY_DRY.
  intros Hv. ladder.
Qed.

(** On a value of [unsigned int] the water level ladder compares the
    value itself. *)
Lemma water_level_classify_unsigned `{Platform} (raw : Z) :
  0 <= raw < 2 ^ int_bits ->
  WaterLevelSensor.classify raw =
  if raw <=? WaterLevelSensor.THRESH_DRY then TOO_LOW
  else if raw <=? WaterLevelSensor.THRESH_DANGER_LOW then DANGER_LOW
  else if raw <=? WaterLevelSensor.THRESH_OK then OK
  else INVALID_STATE.
Proof.
  intros Hraw. unfold WaterLevelSensor.classify. cbv zeta.
  now rewrite raw_round_trip.
Qed.

Lemma water_detection_classify_unsigned `{Platform} (raw : Z) :
  0 <= raw < 2 ^ int_bits ->
  WaterDetectionSensor.classify raw =
  if raw <=? WaterDetectionSensor.THRESH_OFF then OK
  else if raw <=? WaterDetectionSensor.THRESH_ON then TOO_HIGH
  else INVALID_STATE.
Proof.
  intros Hraw. unfold WaterDetectionSensor.classify. cbv zeta.
  now rewrite raw_round_trip.
Qed.

(** Between positive finite values, [v] above [c2] is not at or below a
    [c1] that is at or below [c2]. *)
Lemma SFleb_false_above (m1 m2 : positive) (e1 e2 : Z) (v : spec_float) :
  e1 < e2 \/ (e1 = e2 /\ (m1 <= m2)%positive) ->
  SFltb (S754_finite false m2 e2) v = true ->
  SFleb v (S754_finite false m1 e1) = false.
Proof.
  intros Hc. unfold SFltb, SFleb.
  destruct v as [s | s | | s m e]; cbn [SFcompare].
  - destruct s; discriminate.
  - destruct s; [discriminate | reflexivity].
  - discriminate.
  - destruct s; [discriminate|].
    rewrite !Pos.compare_cont_spec. cbn [Pos.switch_Eq].
    destruct (Z.compare_spec e2 e) as [E2 | E2 | E2]; try discriminate;
      destruct (Z.compare_spec e e1) as [E1 | E1 | E1]; try reflexivity;
      try lia;
      destruct (Pos.compare_spec m2 m); try discriminate;
      destruct (Pos.compare_spec m m1); try reflexivity; lia.
Qed.

(** A single precision value above [14.0f] is above every pH threshold. *)
Lemma ph_classify_above (value : spec_float) :
  SFltb PHSensor.PH_TOO_HIGH value = true ->
  PHSensor.classify value = INVALID_STATE.
Proof.
  unfold PHSensor.PH_TOO_HIGH. intros Habove.
  unfold PHSensor.classify, PHSensor.PH_TOO_LOW, PHSensor.PH_DANGER_LOW,
    PHSensor.PH_OK, PHSensor.PH_DANGER_HIGH, PHSensor.PH_TOO_HIGH.
  rewrite !(fun m1 e1 Hc => SFleb_false_above m1 _ e1 _ value Hc Habove);
    first [reflexivity | left; lia | right; split; [reflexivity | lia]].
Qed.

Lemma ph_classify_first (value : spec_float) :
  SFleb value PHSensor.PH_TOO_LOW = true ->
  PHSensor.classify value = TOO_LOW.
Proof. unfold PHSensor.classify. now intros ->. Qed.

(** C5. Ladder boundaries: every classifier sends a value at or below its
    lowest threshold to the first level of its table, and a value above its
    highest threshold to [INVALID_STATE]; the soil moisture classifier, whose
    scale is inverted, sends 0 to [TOO_HIGH], 1023 to [TOO_LOW] and 2000 to
    [INVALID_STATE]. *)
Theorem ladder_boundaries `{Platform} :
  (forall value : Z,
      (value <= SoilMoistureSensor.THRESH_TOO_WET ->
       SoilMoistureSensor.classify value = TOO_HIGH)
      /\ (SoilMoistureSensor.THRESH_TOO_DRY < value ->
          SoilMoistureSensor.classify value = INVALID_STATE))
  /\ (forall value : spec_float,
         (SFleb value PHSensor.PH_TOO_LOW = true ->
          PHSensor.classify value = TOO_LOW)
         /\ (SFltb PHSensor.PH_TOO_HIGH value = true ->
             PHSensor.classify value = INVALID_STATE))
  /\ (forall raw : Z,
         0 <= raw < 2 ^ int_bits ->
         (raw <= WaterLevelSensor.THRESH_DRY ->
          WaterLevelSensor.classify raw = TOO_LOW)
         /\ (WaterLevelSensor.THRESH_OK < raw ->
             WaterLevelSensor.classify raw = INVALID_STATE))
  /\ (forall raw : Z,
         0 <= raw < 2 ^ int_bits ->
         (raw <= WaterDetectionSensor.THRESH_OFF ->
          WaterDetectionSensor.classify raw = OK)
         /\ (WaterDetectionSensor.THRESH_ON < raw ->
             WaterDetectionSensor.classify raw = INVALID_STATE))
  /\ SoilMoistureSensor.classify 0 = TOO_HIGH
  /\ SoilMoistureSensor.classify 1023 = TOO_LOW
  /\ SoilMoistureSensor.classify 2000 = INVALID_STATE.
Proof.
  repeat apply conj; try reflexivity.
  - intros value. split.
    + apply soil_moisture_classify_first.
    + apply soil_moisture_classify_above.
  - intros value. split.
    + apply ph_classify_first.
    + apply ph_classify_above.
  - intros raw Hraw. rewrite water_level_classify_unsigned by assumption.
    unfold WaterLevelSensor.THRESH_DRY, WaterLevelSensor.THRESH_DANGER_LOW,
      WaterLevelSensor.THRESH_OK.
    split; intros Hv; ladder.
  - intros raw Hraw. rewrite water_detection_classify_unsigned by assumption.
    unfold WaterDetectionSensor.THRESH_OFF, WaterDetectionSensor.THRESH_ON.
    split; intros Hv; ladder.
Qed.

Lemma ladder_boundaries_witness :
  ((200 <= SoilMoistureSensor.THRESH_TOO_WET
    /\ SoilMoistureSensor.THRESH_TOO_DRY < 1024)
   /\ (SFleb (f32_of_Z 5) PHSensor.PH_TOO_LOW = true
       /\ SFltb PHSensor.PH_TOO_HIGH (f32_of_Z 15) = true)
   /\ (0 <= 200 < 2 ^ @int_bits avr
       /\ 200 <= WaterLevelSensor.THRESH_DRY)
   /\ (0 <= 1025 < 2 ^ @int_bits avr
       /\ WaterLevelSensor.THRESH_OK < 1025)
   /\ (0 <= 50 < 2 ^ @int_bits avr
       /\ 50 <= WaterDetectionSensor.THRESH_OFF)
   /\ (0 <= 40000 < 2 ^ @int_bits avr
       /\ WaterDetectionSensor.THRESH_ON < 40000))
  /\ SoilMoistureSensor.classify 200 = TOO_HIGH
  /\ SoilMoistureSensor.classify 1024 = INVALID_STATE
  /\ PHSensor.classify (f32_of_Z 5) = TOO_LOW
  /\ PHSensor.classify (f32_of_Z 15) = INVALID_STATE
  /\ @WaterLevelSensor.classify avr 200 = TOO_LOW
  /\ @WaterLevelSensor.classify avr 1025 = INVALID_STATE
  /\ @WaterDetectionSensor.classify avr 50 = OK
  /\ @WaterDetectionSensor.classify avr 40000 = INVALID_STATE.
Proof.
  pose proof (@ladder_boundaries avr) as (Hsm & Hph & Hwl & Hwd & _).
  assert (R1 : 0 <= 200 < 2 ^ @int_bits avr) by (vm_compute; intuition discriminate).
  assert (R2 : 0 <= 1025 < 2 ^ @int_bits avr) by (vm_compute; intuition discriminate).
  assert (R3 : 0 <= 50 < 2 ^ @int_bits avr) by (vm_compute; intuition discriminate).
  assert (R4 : 0 <= 40000 < 2 ^ @int_bits avr) by (vm_compute; intuition discriminate).
  assert (T1 : 200 <= SoilMoistureSensor.THRESH_TOO_WET) by (vm_compute; discriminate).
  assert (T2 : SoilMoistureSensor.THRESH_TOO_DRY < 1024) by reflexivity.
  assert (T3 : SFleb (f32_of_Z 5) PHSensor.PH_TOO_LOW = true) by reflexivity.
  assert (T4 : SFltb PHSensor.PH_TOO_HIGH (f32_of_Z 15) = true) by reflexivity.
  assert (T5 : 200 <= WaterLevelSensor.THRESH_DRY) by (vm_compute; discriminate).
  assert (T6 : WaterLevelSensor.THRESH_OK < 1025) by reflexivity.
  assert (T7 : 50 <= WaterDetectionSensor.THRESH_OFF) by (vm_compute; discriminate).
  assert (T8 : WaterDetectionSensor.THRESH_ON < 40000) by reflexivity.
  repeat apply conj; try assumption.
  - exact (proj1 (Hsm 200) T1).
  - exact (proj2 (Hsm 1024) T2).
  - exact (proj1 (Hph (f32_of_Z 5)) T3).
  - exact (proj2 (Hph (f32_of_Z 15)) T4).
  - exact (proj1 (Hwl 200 R1) T5).
  - exact (proj2 (Hwl 1025 R2) T6).
  - exact (proj1 (Hwd 50 R3) T7).
  - exact (proj2 (Hwd 40000 R4) T8).
Defined.

(** C6. Limited ranges: on every raw value the water level classifier
    yields [TOO_LOW], [DANGER_LOW], [OK] or [INVALID_STATE], and the water
    detection classifier yields [OK], [TOO_HIGH] or [INVALID_STATE]; so do
    the two sensors on every reading. *)
Theorem limited_ranges `{Platform} :
  (forall raw : Z,
      In (WaterLevelSensor.classify raw)
         [TOO_LOW; DANGER_LOW; OK; INVALID_STATE]
      /\ In (WaterDetectionSensor.classify raw)
            [OK; TOO_HIGH; INVALID_STATE])
  /\ (forall (hw : Hardware) (s : AnalogSensor),
         In (WaterLevelSensor.get_state hw s)
            [TOO_LOW; DANGER_LOW; OK; INVALID_STATE]
         /\ In (WaterDetectionSensor.get_state hw s)
               [OK; TOO_HIGH; INVALID_STATE]).
Proof.
  assert (ranges : forall raw : Z,
             In (WaterLevelSensor.classify raw)
                [TOO_LOW; DANGER_LOW; OK; INVALID_STATE]
             /\ In (WaterDetectionSensor.classify raw)
                   [OK; TOO_HIGH; INVALID_STATE]).
  { intros raw.
    unfold WaterLevelSensor.classify, WaterDetectionSensor.classify.
    cbv zeta. split; split_cascade; simpl; tauto. }
  split; [exact ranges|].
  intros hw s. apply ranges.
Qed.

Lemma limited_ranges_witness :
  In (@WaterLevelSensor.classify avr 300)
     [TOO_LOW; DANGER_LOW; OK; INVALID_STATE]
  /\ In (@WaterDetectionSensor.classify avr 300)
        [OK; TOO_HIGH; INVALID_STATE].
Proof. exact (proj1 (@limited_ranges avr) 300). Defined.

Lemma small_is_unsigned `{Platform} (v : Z) :
  0 <= v < 65536 -> 0 <= v < 2 ^ int_bits.
Proof.
  intros Hv. pose proof int_range_min. pose proof int_modulus.
  change (2 ^ 15) with 32768 in *. lia.
Qed.

Lemma classify_in_domain `{Platform} (raw : Z) :
  0 <= raw <= 1023 ->
  SoilMoistureSensor.classify raw <> INVALID_STATE
  /\ WaterLevelSensor.classify raw <> INVALID_STATE
  /\ WaterDetectionSensor.classify raw <> INVALID_STATE.
Proof.
  intros Hraw.
  rewrite water_level_classify_unsigned, water_detection_classify_unsigned
    by (apply small_is_unsigned; lia).
  unfold SoilMoistureSensor.classify, SoilMoistureSensor.THRESH_TOO_DRY,
    SoilMoistureSensor.THRESH_TOO_WET, SoilMoistureSensor.THRESH_DANGEROUSLY_WET,
    SoilMoistureSensor.THRESH_OK, SoilMoistureSensor.THRESH_DANGEROUSLY_DRY,
    WaterLevelSensor.THRESH_DRY, WaterLevelSensor.THRESH_DANGER_LOW,
    WaterLevelSensor.THRESH_OK,
    WaterDetectionSensor.THRESH_OFF, WaterDetectionSensor.THRESH_ON.
  repeat split; ladder; discriminate.
Qed.

Lemma read_raw_in_domain `{Platform} (hw : Hardware) (s : AnalogSensor) :
  0 <= analogRead hw (PIN_NUMBER s) <= 1023 ->
  read_raw hw s = analogRead hw (PIN_NUMBER s).
Proof. intros Hr. unfold read_raw. apply to_unsigned_small. lia. Qed.

(** C9. Readings in the declared domain: on a raw value in 0..1023 none of
    the soil moisture, water level and water detection classifiers yields
    [INVALID_STATE], their top thresholds 1023, 1024 and 1024 covering the
    domain; hence [DecideAction] does not return at the invalid-state veto
    when the three channels read in 0..1023. *)
Theorem in_domain_never_invalid `{Platform} :
  (1023 <= SoilMoistureSensor.THRESH_TOO_DRY
   /\ 1023 <= WaterLevelSensor.THRESH_OK
   /\ 1023 <= WaterDetectionSensor.THRESH_ON)
  /\ (forall raw : Z,
         0 <= raw <= 1023 ->
         SoilMoistureSensor.classify raw <> INVALID_STATE
         /\ WaterLevelSensor.classify raw <> INVALID_STATE
         /\ WaterDetectionSensor.classify raw <> INVALID_STATE)
  /\ (forall (ad : ActionDecider) (hw : Hardware),
         0 <= analogRead hw (PIN_NUMBER (sm ad)) <= 1023 ->
         0 <= analogRead hw (PIN_NUMBER (wl ad)) <= 1023 ->
         0 <= analogRead hw (PIN_NUMBER (wd ad)) <= 1023 ->
         SoilMoistureSensor.get_state hw (sm ad) <> INVALID_STATE
         /\ WaterLevelSensor.get_state hw (wl ad) <> INVALID_STATE
         /\ WaterDetectionSensor.get_state hw (wd ad) <> INVALID_STATE
         /\ DecideAction_site ad hw <> InvalidStateVeto).
Proof.
  split; [|split].
  - unfold SoilMoistureSensor.THRESH_TOO_DRY, WaterLevelSensor.THRESH_OK,
      WaterDetectionSensor.THRESH_ON. lia.
  - apply @classify_in_domain.
  - intros ad hw Hsm Hwl Hwd.
    assert (Esm : SoilMoistureSensor.get_state hw (sm ad) <> INVALID_STATE).
    { unfold SoilMoistureSensor.get_state.
      rewrite read_raw_in_domain by assumption.
      now apply classify_in_domain. }
    assert (Ewl : WaterLevelSensor.get_state hw (wl ad) <> INVALID_STATE).
    { unfold WaterLevelSensor.get_state.
      rewrite read_raw_in_domain by assumption.
      now apply classify_in_domain. }
    assert (Ewd : WaterDetectionSensor.get_state hw (wd ad) <> INVALID_STATE).
    { unfold WaterDetectionSensor.get_state.
      rewrite read_raw_in_domain by assumption.
      now apply classify_in_domain. }
    repeat split; try assumption.
    unfold DecideAction_site. cbv zeta. rewrite decide_site_invalid.
    intros [E | [E | [E | E]]]; try contradiction. discriminate E.
Qed.

Lemma in_domain_never_invalid_witness :
  (0 <= 1023 <= 1023
   /\ 0 <= analogRead (@bench avr 600 0 500 10)
             (PIN_NUMBER (sm (@the_decider avr))) <= 1023
   /\ 0 <= analogRead (@bench avr 600 0 500 10)
             (PIN_NUMBER (wl (@the_decider avr))) <= 1023
   /\ 0 <= analogRead (@bench avr 600 0 500 10)
             (PIN_NUMBER (wd (@the_decider avr))) <= 1023)
  /\ (SoilMoistureSensor.classify 1023 <> INVALID_STATE
      /\ @WaterLevelSensor.classify avr 1023 <> INVALID_STATE
      /\ @WaterDetectionSensor.classify avr 1023 <> INVALID_STATE)
  /\ @DecideAction_site avr (@the_decider avr) (@bench avr 600 0 500 10)
     <> InvalidStateVeto.
Proof.
  assert (R0 : 0 <= 1023 <= 1023) by lia.
  assert (Rsm : 0 <= analogRead (@bench avr 600 0 500 10)
                       (PIN_NUMBER (sm (@the_decider avr))) <= 1023)
    by (vm_compute; split; discriminate).
  assert (Rwl : 0 <= analogRead (@bench avr 600 0 500 10)
                       (PIN_NUMBER (wl (@the_decider avr))) <= 1023)
    by (vm_compute; split; discriminate).
  assert (Rwd : 0 <= analogRead (@bench avr 600 0 500 10)
                       (PIN_NUMBER (wd (@the_decider avr))) <= 1023)
    by (vm_compute; split; discriminate).
  pose proof (@in_domain_never_invalid avr) as (_ & Hraw & Hrun).
  split; [|split].
  - repeat split; first [apply R0 | apply Rsm | apply Rwl | apply Rwd].
  - exact (Hraw 1023 R0).
  - exact (proj2 (proj2 (proj2 (Hrun (@the_decider avr) (@bench avr 600 0 500 10)
                                   Rsm Rwl Rwd)))).
Defined.

(** ** Pump driver and actuation *)

Lemma turn_on_is_on (d : PumpDriver) (hw : Hardware) :
  is_on (fst (turn_on d hw)) = true.
Proof. reflexivity. Qed.

Lemma turn_off_is_on (d : PumpDriver) (hw : Hardware) :
  is_on (fst (turn_off d hw)) = false.
Proof. reflexivity. Qed.

(** Either command leaves the inputs alone and appends one write to the
    driver's own pin. *)
Lemma turn_on_frame (d : PumpDriver) (hw : Hardware) :
  pin (fst (turn_on d hw)) = pin d
  /\ analogRead (snd (turn_on d hw)) = analogRead hw
  /\ outputs (snd (turn_on d hw)) = outputs hw ++ [DigitalWrite (pin d) HIGH].
Proof. repeat split. Qed.

Lemma turn_off_frame (d : PumpDriver) (hw : Hardware) :
  pin (fst (turn_off d hw)) = pin d
  /\ analogRead (snd (turn_off d hw)) = analogRead hw
  /\ outputs (snd (turn_off d hw)) = outputs hw ++ [DigitalWrite (pin d) LOW].
Proof. repeat split. Qed.

(** C7. [DecidePump] returns the decision of [DecideAction] and issues
    [turn_on] when it is [true], [turn_off] when it is [false]; afterwards
    [is_on] of the pump equals the returned value, and nothing but the
    pump's state has changed: the three sensors, the pump's pin number and
    the analog readings are what they were, and the one output command
    added is the write to the pump's pin. *)
Theorem DecidePump_effect `{Platform} (ad : ActionDecider) (hw : Hardware) :
  let result := DecidePump ad hw in
  let decision := fst (fst result) in
  let ad' := snd (fst result) in
  let hw' := snd result in
  decision = DecideAction ad hw
  /\ (pd ad', hw')
     = (if decision then turn_on (pd ad) hw else turn_off (pd ad) hw)
  /\ is_on (pd ad') = decision
  /\ sm ad' = sm ad /\ wl ad' = wl ad /\ wd ad' = wd ad
  /\ pin (pd ad') = pin (pd ad)
  /\ analogRead hw' = analogRead hw
  /\ outputs hw'
     = outputs hw
         ++ [DigitalWrite (pin (pd ad)) (if decision then HIGH else LOW)].
Proof.
  cbv zeta. unfold DecidePump.
  destruct (DecideAction ad hw); cbn; repeat split.
Qed.

Lemma DecidePump_effect_witness :
  fst (fst (@DecidePump avr (@the_decider avr) (@bench avr 600 0 500 10)))
  = @DecideAction avr (@the_decider avr) (@bench avr 600 0 500 10)
  /\ is_on (pd (snd (fst (@DecidePump avr (@the_decider avr)
                            (@bench avr 600 0 500 10)))))
     = fst (fst (@DecidePump avr (@the_decider avr)
                   (@bench avr 600 0 500 10))).
Proof.
  pose proof (@DecidePump_effect avr (@the_decider avr)
                (@bench avr 600 0 500 10)) as (Hd & _ & Hon & _).
  split; [exact Hd | exact Hon].
Defined.

(** C8. [turn_on] is idempotent: from any state, after two consecutive
    calls [is_on] is [true]; the second call leaves the driver as the first
    one left it and writes [HIGH] to the pin once more.  Both calls are
    total: there is no failure result. *)
Theorem turn_on_idempotent (d : PumpDriver) (hw : Hardware) :
  let once := turn_on d hw in
  let twice := turn_on (fst once) (snd once) in
  is_on (fst once) = true
  /\ is_on (fst twice) = true
  /\ fst twice = fst once
  /\ outputs (snd once) = outputs hw ++ [DigitalWrite (pin d) HIGH]
  /\ outputs (snd twice)
     = outputs (snd once) ++ [DigitalWrite (pin d) HIGH]
  /\ analogRead (snd twice) = analogRead hw.
Proof. cbv zeta. cbn. repeat split. Qed.

(** ** The pH channel *)

Lemma decide_site_ph_OK `{Platform} (sm_state wl_state wd_state : SensorStateLevel) :
  decide_site sm_state OK wl_state wd_state <> PhVeto.
Proof.
  unfold decide_site.
  change (level_eqb OK TOO_LOW || level_eqb OK TOO_HIGH) with false.
  split_cascade; discriminate.
Qed.

(** C10. [DecideAction] does not depend on a pH reading: it runs the
    cascade with the pH state [OK]; two boards whose soil moisture, water
    level and water detection channels read alike, whatever the other
    channels carry, get the same decision at the same [return] statement;
    and the pH veto is never the statement reached. *)
Theorem DecideAction_ignores_ph `{Platform} :
  (forall (ad : ActionDecider) (hw : Hardware),
      DecideAction ad hw
      = decide (SoilMoistureSensor.get_state hw (sm ad)) OK
               (WaterLevelSensor.get_state hw (wl ad))
               (WaterDetectionSensor.get_state hw (wd ad)))
  /\ (forall (ad : ActionDecider) (hw1 hw2 : Hardware),
         analogRead hw1 (PIN_NUMBER (sm ad))
         = analogRead hw2 (PIN_NUMBER (sm ad)) ->
         analogRead hw1 (PIN_NUMBER (wl ad))
         = analogRead hw2 (PIN_NUMBER (wl ad)) ->
         analogRead hw1 (PIN_NUMBER (wd ad))
         = analogRead hw2 (PIN_NUMBER (wd ad)) ->
         DecideAction ad hw1 = DecideAction ad hw2
         /\ DecideAction_site ad hw1 = DecideAction_site ad hw2)
  /\ (forall (ad : ActionDecider) (hw : Hardware),
         DecideAction_site ad hw <> PhVeto).
Proof.
  split; [reflexivity|split].
  - intros ad hw1 hw2 Esm Ewl Ewd.
    unfold DecideAction, DecideAction_site, SoilMoistureSensor.get_state,
      WaterLevelSensor.get_state, WaterDetectionSensor.get_state, read_raw.
    rewrite Esm, Ewl, Ewd. split; reflexivity.
  - intros ad hw. apply decide_site_ph_OK.
Qed.

Lemma DecideAction_ignores_ph_witness :
  (analogRead (@bench avr 600 0 500 10) (PIN_NUMBER (sm (@the_decider avr)))
   = analogRead (@bench avr 600 1023 500 10)
       (PIN_NUMBER (sm (@the_decider avr)))
   /\ analogRead (@bench avr 600 0 500 10) (PIN_NUMBER (wl (@the_decider avr)))
      = analogRead (@bench avr 600 1023 500 10)
          (PIN_NUMBER (wl (@the_decider avr)))
   /\ analogRead (@bench avr 600 0 500 10) (PIN_NUMBER (wd (@the_decider avr)))
      = analogRead (@bench avr 600 1023 500 10)
          (PIN_NUMBER (wd (@the_decider avr)))
   /\ analogRead (@bench avr 600 0 500 10) (@PH_PIN avr)
      <> analogRead (@bench avr 600 1023 500 10) (@PH_PIN avr))
  /\ @DecideAction avr (@the_decider avr) (@bench avr 600 0 500 10)
     = @DecideAction avr (@the_decider avr) (@bench avr 600 1023 500 10).
Proof.
  split.
  - repeat split; try reflexivity. vm_compute. discriminate.
  - apply (proj1 (proj2 (@DecideAction_ignores_ph avr))); reflexivity.
Defined.

(** ** Runs on the two sample platforms *)

Example water_level_samples :
  @WaterLevelSensor.classify avr 100 = TOO_LOW
  /\ @WaterLevelSensor.classify avr 300 = DANGER_LOW
  /\ @WaterLevelSensor.classify arm32 1000 = OK
  /\ @WaterLevelSensor.classify arm32 1024 = OK.
Proof. repeat split. Qed.

Example ph_samples :
  PHSensor.classify (f32_of_Z 7) = OK
  /\ PHSensor.classify (f32_of_Z 5) = TOO_LOW
  /\ PHSensor.classify (f32_of_Z 14) = TOO_HIGH
  /\ @PHSensor.get_state avr (@bench avr 0 1023 0 0)
       (AnalogSensor_new (@PH_PIN avr)) = TOO_HIGH
  /\ @PHSensor.get_state avr (@bench avr 0 500 0 0)
       (AnalogSensor_new (@PH_PIN avr)) = OK.
Proof. repeat split. Qed.

Example ph_literals :
  PHSensor.PH_TOO_LOW = f32_div (f32_of_Z 58) (f32_of_Z 10)
  /\ PHSensor.PH_DANGER_LOW = f32_div (f32_of_Z 61) (f32_of_Z 10)
  /\ PHSensor.PH_OK = f32_of_Z 7
  /\ PHSensor.PH_DANGER_HIGH = f32_div (f32_of_Z 75) (f32_of_Z 10)
  /\ PHSensor.PH_TOO_HIGH = f32_of_Z 14.
Proof. repeat split. Qed.

Example dry_tank_veto :
  @decide avr DANGER_LOW OK TOO_LOW OK = false
  /\ @decide_site arm32 DANGER_LOW OK TOO_LOW OK = DryTankVeto.
Proof. split; reflexivity. Qed.

Example default_off :
  @decide avr TOO_HIGH OK OK OK = false
  /\ @decide_site arm32 TOO_HIGH OK OK OK = DefaultOff.
Proof. split; reflexivity. Qed.

Example sentinel_cast :
  @as_int avr INVALID_STATE = -1 /\ @as_int arm32 INVALID_STATE = INT32_MAX.
Proof. split; reflexivity. Qed.

Example DecidePump_dry_soil :
  @DecidePump avr (@the_decider avr) (@bench avr 600 0 500 10)
  = (true,
     {| sm := {| PIN_NUMBER := 15 |};
        wl := {| PIN_NUMBER := 17 |};
        wd := {| PIN_NUMBER := 20 |};
        pd := {| pin := 2; on := true |} |},
     {| analogRead := analogRead (@bench avr 600 0 500 10);
        outputs := [DigitalWrite 2 HIGH] |}).
Proof. reflexivity. Qed.

Example DecidePump_sensor_fault :
  fst (@DecidePump avr (@the_decider avr) (@bench avr 2000 0 500 10))
  = (false,
     {| sm := {| PIN_NUMBER := 15 |};
        wl := {| PIN_NUMBER := 17 |};
        wd := {| PIN_NUMBER := 20 |};
        pd := {| pin := 2; on := false |} |}).
Proof. reflexivity. Qed.

(** * Further properties of the sources *)

(** ** [state_to_str] *)

Lemma state_to_str_inj (a b : SensorStateLevel) :
  state_to_str a = state_to_str b -> a = b.
Proof. destruct a, b; intros E; try reflexivity; discriminate E. Qed.

(** X1. [state_to_str] names the six levels apart: two levels have the same
    text only when they are the same level, and no text is empty. *)
Theorem state_to_str_distinct (a b : SensorStateLevel) :
  (state_to_str a = state_to_str b <-> a = b)
  /\ state_to_str a <> EmptyString.
Proof.
  split; [split|].
  - apply state_to_str_inj.
  - now intros ->.
  - destruct a; discriminate.
Qed.

(** ** The ladders, interval by interval *)

(** Unfolds the thresholds of the three integer ladders. *)
Ltac thresholds :=
  unfold SoilMoistureSensor.THRESH_TOO_WET,
    SoilMoistureSensor.THRESH_DANGEROUSLY_WET, SoilMoistureSensor.THRESH_OK,
    SoilMoistureSensor.THRESH_DANGEROUSLY_DRY, SoilMoistureSensor.THRESH_TOO_DRY,
    WaterLevelSensor.THRESH_DRY, WaterLevelSensor.THRESH_DANGER_LOW,
    WaterLevelSensor.THRESH_OK,
    WaterDetectionSensor.THRESH_OFF, WaterDetectionSensor.THRESH_ON in *.

(** Settles a goal about a ladder whose tests have been decided. *)
Ltac by_interval :=
  repeat split; intros; try discriminate; try reflexivity; try lia.

(** X2. The soil moisture ladder, level by level: [TOO_HIGH] up to 350,
    [DANGER_HIGH] on 351..450, [OK] on 451..550, [DANGER_LOW] on 551..650,
    [TOO_LOW] on 651..1023 and [INVALID_STATE] above 1023; each bound
    belongs to the interval below it. *)
Theorem soil_moisture_intervals (value : Z) :
  (SoilMoistureSensor.classify value = TOO_HIGH <-> value <= 350)
  /\ (SoilMoistureSensor.classify value = DANGER_HIGH <-> 350 < value <= 450)
  /\ (SoilMoistureSensor.classify value = OK <-> 450 < value <= 550)
  /\ (SoilMoistureSensor.classify value = DANGER_LOW <-> 550 < value <= 650)
  /\ (SoilMoistureSensor.classify value = TOO_LOW <-> 650 < value <= 1023)
  /\ (SoilMoistureSensor.classify value = INVALID_STATE <-> 1023 < value).
Proof.
  unfold SoilMoistureSensor.classify. thresholds.
  repeat match goal with
         | |- context [?a <=? ?b] => destruct (Z.leb_spec a b)
         end; by_interval.
Qed.

(** X3. The water level ladder on a value of [unsigned int], level by
    level: [TOO_LOW] up to 200, [DANGER_LOW] on 201..450, [OK] on 451..1024
    and [INVALID_STATE] above 1024; it never yields [DANGER_HIGH] or
    [TOO_HIGH]. *)
Theorem water_level_intervals `{Platform} (raw : Z) :
  0 <= raw < 2 ^ int_bits ->
  (WaterLevelSensor.classify raw = TOO_LOW <-> raw <= 200)
  /\ (WaterLevelSensor.classify raw = DANGER_LOW <-> 200 < raw <= 450)
  /\ (WaterLevelSensor.classify raw = OK <-> 450 < raw <= 1024)
  /\ (WaterLevelSensor.classify raw = INVALID_STATE <-> 1024 < raw)
  /\ WaterLevelSensor.classify raw <> DANGER_HIGH
  /\ WaterLevelSensor.classify raw <> TOO_HIGH.
Proof.
  intros Hraw. rewrite water_level_classify_unsigned by assumption.
  thresholds.
  repeat match goal with
         | |- context [?a <=? ?b] => destruct (Z.leb_spec a b)
         end; by_interval.
Qed.

Lemma water_level_intervals_witness :
  0 <= 1024 < 2 ^ @int_bits avr
  /\ (@WaterLevelSensor.classify avr 1024 = OK <-> 450 < 1024 <= 1024).
Proof.
  assert (Hraw : 0 <= 1024 < 2 ^ @int_bits avr)
    by (split; [discriminate | reflexivity]).
  split; [exact Hraw|].
  exact (proj1 (proj2 (proj2 (@water_level_intervals avr 1024 Hraw)))).
Defined.

(** X4. The water detection ladder on a value of [unsigned int], level by
    level: [OK] up to 50, [TOO_HIGH] on 51..1024 and [INVALID_STATE] above
    1024; it never yields [TOO_LOW], [DANGER_LOW] or [DANGER_HIGH]. *)
Theorem water_detection_intervals `{Platform} (raw : Z) :
  0 <= raw < 2 ^ int_bits ->
  (WaterDetectionSensor.classify raw = OK <-> raw <= 50)
  /\ (WaterDetectionSensor.classify raw = TOO_HIGH <-> 50 < raw <= 1024)
  /\ (WaterDetectionSensor.classify raw = INVALID_STATE <-> 1024 < raw)
  /\ WaterDetectionSensor.classify raw <> TOO_LOW
  /\ WaterDetectionSensor.classify raw <> DANGER_LOW
  /\ WaterDetectionSensor.classify raw <> DANGER_HIGH.
Proof.
  intros Hraw. rewrite water_detection_classify_unsigned by assumption.
  thresholds.
  repeat match goal with
         | |- context [?a <=? ?b] => destruct (Z.leb_spec a b)
         end; by_interval.
Qed.

Lemma water_detection_intervals_witness :
  0 <= 51 < 2 ^ @int_bits arm32
  /\ (@WaterDetectionSensor.classify arm32 51 = TOO_HIGH <-> 50 < 51 <= 1024).
Proof.
  assert (Hraw : 0 <= 51 < 2 ^ @int_bits arm32)
    by (split; [discriminate | reflexivity]).
  split; [exact Hraw|].
  exact (proj1 (proj2 (@water_detection_intervals arm32 51 Hraw))).
Defined.

(** X5. The ladders follow the reading.  A wetter soil (a lower value)
    never gets a lower level, as long as the values are within the last
    threshold; a higher water level or water detection value never gets a
    lower level, [INVALID_STATE] being the largest value of the
    enumeration. *)
Theorem ladders_monotone `{Platform} :
  (forall v1 v2 : Z,
      v1 <= v2 -> v2 <= SoilMoistureSensor.THRESH_TOO_DRY ->
      enum_value (SoilMoistureSensor.classify v2)
      <= enum_value (SoilMoistureSensor.classify v1))
  /\ (forall r1 r2 : Z,
         0 <= r1 -> r1 <= r2 -> r2 < 2 ^ int_bits ->
         enum_value (WaterLevelSensor.classify r1)
         <= enum_value (WaterLevelSensor.classify r2))
  /\ (forall r1 r2 : Z,
         0 <= r1 -> r1 <= r2 -> r2 < 2 ^ int_bits ->
         enum_value (WaterDetectionSensor.classify r1)
         <= enum_value (WaterDetectionSensor.classify r2)).
Proof.
  split; [|split].
  - intros v1 v2 Hle Htop. unfold SoilMoistureSensor.classify. thresholds.
    repeat match goal with
           | |- context [?a <=? ?b] => destruct (Z.leb_spec a b)
           end; simpl; unfold INT32_MAX; lia.
  - intros r1 r2 H0 Hle Htop.
    rewrite !water_level_classify_unsigned by lia. thresholds.
    repeat match goal with
           | |- context [?a <=? ?b] => destruct (Z.leb_spec a b)
           end; simpl; unfold INT32_MAX; lia.
  - intros r1 r2 H0 Hle Htop.
    rewrite !water_detection_classify_unsigned by lia. thresholds.
    repeat match goal with
           | |- context [?a <=? ?b] => destruct (Z.leb_spec a b)
           end; simpl; unfold INT32_MAX; lia.
Qed.

Lemma ladders_monotone_witness :
  (400 <= 600 /\ 600 <= SoilMoistureSensor.THRESH_TOO_DRY
   /\ 0 <= 300 /\ 300 <= 40000 /\ 40000 < 2 ^ @int_bits avr)
  /\ enum_value (SoilMoistureSensor.classify 600)
     <= enum_value (SoilMoistureSensor.classify 400)
  /\ enum_value (@WaterLevelSensor.classify avr 300)
     <= enum_value (@WaterLevelSensor.classify avr 40000)
  /\ enum_value (@WaterDetectionSensor.classify avr 300)
     <= enum_value (@WaterDetectionSensor.classify avr 40000).
Proof.
  pose proof (@ladders_monotone avr) as (Hsm & Hwl & Hwd).
  assert (H1 : 400 <= 600) by lia.
  assert (H2 : 600 <= SoilMoistureSensor.THRESH_TOO_DRY)
    by (vm_compute; discriminate).
  assert (H3 : 0 <= 300) by lia.
  assert (H4 : 300 <= 40000) by lia.
  assert (H5 : 40000 < 2 ^ @int_bits avr) by reflexivity.
  split; [repeat split; assumption|].
  split; [exact (Hsm 400 600 H1 H2)|].
  split; [exact (Hwl 300 40000 H3 H4 H5) | exact (Hwd 300 40000 H3 H4 H5)].
Defined.

(** ** The pH sensor on in-domain readings *)

(** The levels of the 1024 in-domain readings, checked one by one. *)
Lemma ph_levels_checked :
  forallb
    (fun n : nat =>
       level_eqb
         (PHSensor.classify
            (f32_add
               (f32_mul (f32_div (f32_of_Z (Z.of_nat n)) (f32_of_Z 1023))
                  (f32_sub (f32_of_Z 14) (f32_of_Z 0)))
               (f32_of_Z 0)))
         (if Z.of_nat n <=? 423 then TOO_LOW
          else if Z.of_nat n <=? 445 then DANGER_LOW
          else if Z.of_nat n <=? 511 then OK
          else if Z.of_nat n <=? 548 then DANGER_HIGH
          else TOO_HIGH))
    (seq 0 1024) = true.
Proof. vm_compute. reflexivity. Qed.

(** X6. The pH sensor on a reading in 0..1023: the mapped single precision
    value falls in [TOO_LOW] up to 423, [DANGER_LOW] on 424..445, [OK] on
    446..511, [DANGER_HIGH] on 512..548 and [TOO_HIGH] on 549..1023; it is
    never [INVALID_STATE]. *)
Theorem ph_sensor_in_domain `{Platform} (hw : Hardware) (s : AnalogSensor) :
  let raw := analogRead hw (PIN_NUMBER s) in
  0 <= raw <= 1023 ->
  PHSensor.get_state hw s
  = (if raw <=? 423 then TOO_LOW
     else if raw <=? 445 then DANGER_LOW
     else if raw <=? 511 then OK
     else if raw <=? 548 then DANGER_HIGH
     else TOO_HIGH)
  /\ PHSensor.get_state hw s <> INVALID_STATE.
Proof.
  cbv zeta. intros Hraw.
  assert (E : PHSensor.get_state hw s
              = (if analogRead hw (PIN_NUMBER s) <=? 423 then TOO_LOW
                 else if analogRead hw (PIN_NUMBER s) <=? 445 then DANGER_LOW
                 else if analogRead hw (PIN_NUMBER s) <=? 511 then OK
                 else if analogRead hw (PIN_NUMBER s) <=? 548 then DANGER_HIGH
                 else TOO_HIGH)).
  { unfold PHSensor.get_state, read_mapped_float. cbv zeta.
    rewrite read_raw_in_domain by assumption.
    pose proof ph_levels_checked as Hall.
    rewrite forallb_forall in Hall.
    specialize (Hall (Z.to_nat (analogRead hw (PIN_NUMBER s)))).
    rewrite Z2Nat.id in Hall by lia.
    apply level_eqb_eq, Hall, in_seq. lia. }
  split; [exact E|].
  rewrite E. split_cascade; discriminate.
Qed.

Lemma ph_sensor_in_domain_witness :
  0 <= analogRead (@bench avr 0 512 0 0)
         (PIN_NUMBER (AnalogSensor_new (@PH_PIN avr))) <= 1023
  /\ @PHSensor.get_state avr (@bench avr 0 512 0 0)
       (AnalogSensor_new (@PH_PIN avr)) <> INVALID_STATE.
Proof.
  assert (Hraw : 0 <= analogRead (@bench avr 0 512 0 0)
                        (PIN_NUMBER (AnalogSensor_new (@PH_PIN avr))) <= 1023)
    by (vm_compute; split; discriminate).
  split; [exact Hraw|].
  exact (proj2 (@ph_sensor_in_domain avr (@bench avr 0 512 0 0)
                  (AnalogSensor_new (@PH_PIN avr)) Hraw)).
Defined.

(** ** The cascade as a whole *)

(** The condition under which the cascade decides to pump, on the declared
    values of the levels. *)
Lemma decide_true_iff_ordinal `{Platform}
  (sm_state ph_state wl_state wd_state : SensorStateLevel) :
  decide sm_state ph_state wl_state wd_state = true <->
  (sm_state <> INVALID_STATE /\ ph_state <> INVALID_STATE
   /\ wl_state <> INVALID_STATE /\ wd_state <> INVALID_STATE)
  /\ wl_state <> TOO_LOW
  /\ ph_state <> TOO_LOW /\ ph_state <> TOO_HIGH
  /\ ((wd_state = OK /\ in_ordinal_range OK TOO_HIGH wl_state
       /\ in_ordinal_range TOO_LOW DANGER_HIGH sm_state)
      \/ ((wd_state = OK \/ wd_state = TOO_HIGH) /\ sm_state = TOO_LOW)).
Proof.
  unfold in_ordinal_range.
  destruct (level_eqb sm_state INVALID_STATE || level_eqb ph_state INVALID_STATE
            || level_eqb wl_state INVALID_STATE || level_eqb wd_state INVALID_STATE)
    eqn:Einv.
  - unfold decide. rewrite Einv.
    rewrite !orb_true_iff, !level_eqb_eq in Einv.
    split; [discriminate | tauto].
  - unfold decide, level_geb, level_leb. rewrite Einv.
    rewrite !orb_false_iff in Einv. destruct Einv as [[[E1 E2] E3] E4].
    assert (Hsm : sm_state <> INVALID_STATE)
      by (intros ->; discriminate E1).
    assert (Hph : ph_state <> INVALID_STATE)
      by (intros ->; discriminate E2).
    assert (Hwl : wl_state <> INVALID_STATE)
      by (intros ->; discriminate E3).
    assert (Hwd : wd_state <> INVALID_STATE)
      by (intros ->; discriminate E4).
    rewrite (as_int_ordinal sm_state), (as_int_ordinal wl_state) by assumption.
    autorewrite with as_int.
    destruct sm_state, ph_state, wl_state, wd_state;
      try contradiction; simpl;
      (split;
       [ intros Hd; try discriminate Hd;
         repeat split; try discriminate; try lia;
         first [ left; repeat split; (reflexivity || lia)
               | right; split; [(left; reflexivity) || (right; reflexivity)
                               | reflexivity] ]
       | intros (_ & Hdry & Hlo & Hhi & Hrun);
         try reflexivity; try contradiction;
         destruct Hrun as [(Hw & [? ?] & [? ?]) | ([Hw | Hw] & Hs)];
         try discriminate; simpl in *; lia ]).
Qed.

Lemma decide_dry_tank `{Platform} (sm_state ph_state wd_state : SensorStateLevel) :
  decide sm_state ph_state TOO_LOW wd_state = false
  /\ (decide_site sm_state ph_state TOO_LOW wd_state = InvalidStateVeto
      \/ decide_site sm_state ph_state TOO_LOW wd_state = DryTankVeto).
Proof.
  destruct sm_state, ph_state, wd_state; split;
    first [reflexivity | left; reflexivity | right; reflexivity].
Qed.

(** X7. Dry tank: with the water level at [TOO_LOW] the cascade decides
    [false] whatever the other three states are, returning at rule 1 or at
    rule 2; so [DecideAction] decides [false] whenever the water level
    reading is at most 200, whatever the other channels carry. *)
Theorem dry_tank_never_pumps `{Platform} :
  (forall sm_state ph_state wd_state : SensorStateLevel,
      decide sm_state ph_state TOO_LOW wd_state = false
      /\ (decide_site sm_state ph_state TOO_LOW wd_state = InvalidStateVeto
          \/ decide_site sm_state ph_state TOO_LOW wd_state = DryTankVeto))
  /\ (forall (ad : ActionDecider) (hw : Hardware),
         read_raw hw (wl ad) <= WaterLevelSensor.THRESH_DRY ->
         DecideAction ad hw = false).
Proof.
  split; [apply @decide_dry_tank|].
  intros ad hw Hdry.
  unfold DecideAction, WaterLevelSensor.get_state. cbv zeta.
  rewrite water_level_classify_unsigned by apply read_raw_range.
  destruct (Z.leb_spec (read_raw hw (wl ad)) WaterLevelSensor.THRESH_DRY);
    [|lia].
  apply decide_dry_tank.
Qed.

Lemma dry_tank_never_pumps_witness :
  @read_raw avr (@bench avr 900 0 150 0) (wl (@the_decider avr))
  <= WaterLevelSensor.THRESH_DRY
  /\ @DecideAction avr (@the_decider avr) (@bench avr 900 0 150 0) = false.
Proof.
  assert (Hdry : @read_raw avr (@bench avr 900 0 150 0) (wl (@the_decider avr))
                 <= WaterLevelSensor.THRESH_DRY)
    by (vm_compute; discriminate).
  split; [exact Hdry|].
  exact (proj2 (@dry_tank_never_pumps avr) _ _ Hdry).
Defined.

(** X8. The cascade decides [true] exactly when no state is
    [INVALID_STATE], the water level is not [TOO_LOW], the pH is neither
    [TOO_LOW] nor [TOO_HIGH], and either the standard condition holds (water
    detection [OK], water level in [OK .. TOO_HIGH], soil moisture in
    [TOO_LOW .. DANGER_HIGH]) or the bone-dry one (water detection [OK] or
    [TOO_HIGH], soil moisture [TOO_LOW]); in every other case it decides
    [false]. *)
Theorem decide_true_iff `{Platform}
  (sm_state ph_state wl_state wd_state : SensorStateLevel) :
  let run :=
    (sm_state <> INVALID_STATE /\ ph_state <> INVALID_STATE
     /\ wl_state <> INVALID_STATE /\ wd_state <> INVALID_STATE)
    /\ wl_state <> TOO_LOW
    /\ ph_state <> TOO_LOW /\ ph_state <> TOO_HIGH
    /\ ((wd_state = OK /\ in_ordinal_range OK TOO_HIGH wl_state
         /\ in_ordinal_range TOO_LOW DANGER_HIGH sm_state)
        \/ ((wd_state = OK \/ wd_state = TOO_HIGH) /\ sm_state = TOO_LOW)) in
  (decide sm_state ph_state wl_state wd_state = true <-> run)
  /\ (decide sm_state ph_state wl_state wd_state = false <-> ~ run).
Proof.
  cbv zeta. pose proof (decide_true_iff_ordinal sm_state ph_state wl_state wd_state) as Hiff.
  split; [exact Hiff|].
  destruct (decide sm_state ph_state wl_state wd_state).
  - split; [discriminate|]. intros Hn. exfalso. apply Hn, Hiff. reflexivity.
  - split; [|reflexivity]. intros _ Hrun. apply Hiff in Hrun. discriminate.
Qed.

(** Evaluates the cascade met in a goal on constructor levels. *)
Ltac eval_decide :=
  unfold decide, level_geb, level_leb; autorewrite with as_int; simpl.

(** X9. [DecideAction] on readings in 0..1023, in terms of the readings
    alone: it decides [true] exactly when the water level reading is above
    200 and either the soil moisture reading is above 650, or the water
    detection reading is at most 50, the water level reading above 450 and
    the soil moisture reading above 350. *)
Theorem DecideAction_on_readings `{Platform} (ad : ActionDecider) (hw : Hardware) :
  let soil := analogRead hw (PIN_NUMBER (sm ad)) in
  let level := analogRead hw (PIN_NUMBER (wl ad)) in
  let bottom := analogRead hw (PIN_NUMBER (wd ad)) in
  0 <= soil <= 1023 -> 0 <= level <= 1023 -> 0 <= bottom <= 1023 ->
  DecideAction ad hw = true <->
  200 < level
  /\ (650 < soil \/ (bottom <= 50 /\ 450 < level /\ 350 < soil)).
Proof.
  cbv zeta. intros Hsoil Hlevel Hbottom.
  unfold DecideAction, SoilMoistureSensor.get_state,
    WaterLevelSensor.get_state, WaterDetectionSensor.get_state. cbv zeta.
  rewrite !read_raw_in_domain by assumption.
  rewrite water_level_classify_unsigned, water_detection_classify_unsigned
    by (apply small_is_unsigned; lia).
  unfold SoilMoistureSensor.classify. thresholds.
  repeat match goal with
         | |- context [?a <=? ?b] => destruct (Z.leb_spec a b)
         end;
    try lia; eval_decide;
    (split; [intros Hd; try discriminate Hd; lia | intros Hr; try reflexivity; lia]).
Qed.

Lemma DecideAction_on_readings_witness :
  (0 <= analogRead (@bench avr 700 0 300 900)
          (PIN_NUMBER (sm (@the_decider avr))) <= 1023
   /\ 0 <= analogRead (@bench avr 700 0 300 900)
             (PIN_NUMBER (wl (@the_decider avr))) <= 1023
   /\ 0 <= analogRead (@bench avr 700 0 300 900)
             (PIN_NUMBER (wd (@the_decider avr))) <= 1023)
  /\ (@DecideAction avr (@the_decider avr) (@bench avr 700 0 300 900) = true
      <-> 200 < analogRead (@bench avr 700 0 300 900)
                  (PIN_NUMBER (wl (@the_decider avr)))
          /\ (650 < analogRead (@bench avr 700 0 300 900)
                      (PIN_NUMBER (sm (@the_decider avr)))
              \/ (analogRead (@bench avr 700 0 300 900)
                    (PIN_NUMBER (wd (@the_decider avr))) <= 50
                  /\ 450 < analogRead (@bench avr 700 0 300 900)
                             (PIN_NUMBER (wl (@the_decider avr)))
                  /\ 350 < analogRead (@bench avr 700 0 300 900)
                             (PIN_NUMBER (sm (@the_decider avr)))))).
Proof.
  assert (Hsm : 0 <= analogRead (@bench avr 700 0 300 900)
                       (PIN_NUMBER (sm (@the_decider avr))) <= 1023)
    by (vm_compute; split; discriminate).
  assert (Hwl : 0 <= analogRead (@bench avr 700 0 300 900)
                       (PIN_NUMBER (wl (@the_decider avr))) <= 1023)
    by (vm_compute; split; discriminate).
  assert (Hwd : 0 <= analogRead (@bench avr 700 0 300 900)
                       (PIN_NUMBER (wd (@the_decider avr))) <= 1023)
    by (vm_compute; split; discriminate).
  split; [repeat split; first [apply Hsm | apply Hwl | apply Hwd]|].
  exact (@DecideAction_on_readings avr (@the_decider avr)
           (@bench avr 700 0 300 900) Hsm Hwl Hwd).
Defined.

(** ** Sequences of pump commands *)

Lemma pump_command_effect (c : PumpCommand) (d : PumpDriver) (hw : Hardware) :
  pump_command c d hw
  = ({| pin := pin d; on := commanded_on c |},
     emit (DigitalWrite (pin d) (commanded_level c)) hw).
Proof. destruct c; reflexivity. Qed.

Lemma last_cons_default {A : Type} (l : list A) :
  forall x d : A, last (x :: l) d = last l x.
Proof.
  induction l as [|y l IH]; intros x d; [reflexivity|].
  change (last (x :: y :: l) d) with (last (y :: l) d).
  rewrite !IH. reflexivity.
Qed.

Lemma pump_commands_effect (cs : list PumpCommand) :
  forall (d : PumpDriver) (hw : Hardware),
    pin (fst (pump_commands cs d hw)) = pin d
    /\ is_on (fst (pump_commands cs d hw)) = last (map commanded_on cs) (is_on d)
    /\ analogRead (snd (pump_commands cs d hw)) = analogRead hw
    /\ outputs (snd (pump_commands cs d hw))
       = outputs hw
           ++ map (fun c => DigitalWrite (pin d) (commanded_level c)) cs.
Proof.
  induction cs as [|c rest IH]; intros d hw.
  - simpl. rewrite app_nil_r. repeat split.
  - cbn [pump_commands]. rewrite pump_command_effect.
    destruct (IH {| pin := pin d; on := commanded_on c |}
                 (emit (DigitalWrite (pin d) (commanded_level c)) hw))
      as (Hpin & Hon & Hin & Hout).
    rewrite Hpin, Hon, Hin, Hout. cbn [pin is_on on emit analogRead outputs map].
    rewrite <- app_assoc. repeat split.
    symmetry. apply last_cons_default.
Qed.

(** X10. Any sequence of [turn_on] and [turn_off] calls keeps the driver's
    pin, leaves the analog readings alone, adds one write to that pin per
    call, in order, and ends with [is_on] telling the last call; on a driver
    fresh from its constructor, [is_on] is [true] exactly when the last
    command in the board's log is a write of [HIGH] to the pin. *)
Theorem pump_mirrors_last_command (cs : list PumpCommand)
  (d : PumpDriver) (hw : Hardware) (p : Z) :
  let after := pump_commands cs d hw in
  let fresh := PumpDriver_new p hw in
  let later := pump_commands cs (fst fresh) (snd fresh) in
  (pin (fst after) = pin d
   /\ is_on (fst after) = last (map commanded_on cs) (is_on d)
   /\ analogRead (snd after) = analogRead hw
   /\ outputs (snd after)
      = outputs hw ++ map (fun c => DigitalWrite (pin d) (commanded_level c)) cs)
  /\ last (outputs (snd later)) (PinModeOutput 0)
     = DigitalWrite (pin (fst later))
         (if is_on (fst later) then HIGH else LOW).
Proof.
  cbv zeta. split; [apply pump_commands_effect|].
  destruct (pump_commands_effect cs (fst (PumpDriver_new p hw))
              (snd (PumpDriver_new p hw))) as (Hpin & Hon & _ & Hout).
  rewrite Hpin, Hon, Hout. cbn [PumpDriver_new fst snd pin is_on on emit outputs].
  destruct cs as [|c rest] using rev_ind.
  - cbn [map]. rewrite app_nil_r, last_last. reflexivity.
  - rewrite !map_app. cbn [map]. rewrite app_assoc, !last_last.
    destruct c; reflexivity.
Qed.

(** ** Construction of the decider *)


Lemma issued_emit2 (e1 e2 : HwEvent) (hw : Hardware) :
  issued hw (emit e2 (emit e1 hw)) = [e1; e2].
Proof.
  unfold issued, emit. cbn [outputs]. rewrite <- app_assoc.
  rewrite skipn_app, skipn_all, Nat.sub_diag. reflexivity.
Qed.

Lemma to_ushort_small (v : Z) : 0 <= v < 65536 -> to_ushort v = v.
Proof. intros Hv. unfold to_ushort. apply Z.mod_small. exact Hv. Qed.

Lemma ActionDecider_new_wiring `{Platform} (hw : Hardware) :
  0 <= A1 < 65536 -> 0 <= A3 < 65536 -> 0 <= A6 < 65536 ->
  ActionDecider_new hw
  = ({| sm := {| PIN_NUMBER := A1 |};
        wl := {| PIN_NUMBER := A3 |};
        wd := {| PIN_NUMBER := A6 |};
        pd := {| pin := 2; on := false |} |},
     emit (DigitalWrite 2 LOW) (emit (PinModeOutput 2) hw)).
Proof.
  intros H1 H3 H6.
  unfold ActionDecider_new, PumpDriver_new, AnalogSensor_new,
    SM_PIN, WL_PIN, WD_PIN, PD_PIN. cbv zeta.
  rewrite !to_unsigned_small by lia.
  rewrite !to_ushort_small by lia. reflexivity.
Qed.

(** X11. On a board whose analog pin numbers fit [unsigned short], the
    decider the sketch constructs reads soil moisture on [A1], water level on
    [A3] and water detection on [A6], and drives the pump on pin 2; the pump
    starts off, and the construction has put pin 2 in output mode and then
    written [LOW] to it, nothing else. *)
Theorem decider_wiring `{Platform} (hw : Hardware) :
  0 <= A1 < 65536 -> 0 <= A3 < 65536 -> 0 <= A6 < 65536 ->
  let ad := fst (ActionDecider_new hw) in
  let hw' := snd (ActionDecider_new hw) in
  PIN_NUMBER (sm ad) = A1 /\ PIN_NUMBER (wl ad) = A3
  /\ PIN_NUMBER (wd ad) = A6 /\ pin (pd ad) = 2
  /\ is_on (pd ad) = false
  /\ analogRead hw' = analogRead hw
  /\ issued hw hw' = [PinModeOutput 2; DigitalWrite 2 LOW].
Proof.
  intros H1 H3 H6. cbv zeta.
  rewrite ActionDecider_new_wiring by assumption.
  cbn [fst snd sm wl wd pd PIN_NUMBER pin is_on on].
  rewrite issued_emit2. repeat split.
Qed.

Lemma decider_wiring_witness :
  (0 <= @A1 arm32 < 65536 /\ 0 <= @A3 arm32 < 65536 /\ 0 <= @A6 arm32 < 65536)
  /\ PIN_NUMBER (sm (fst (@ActionDecider_new arm32 (@bench arm32 0 0 0 0))))
     = @A1 arm32
  /\ issued (@bench arm32 0 0 0 0)
       (snd (@ActionDecider_new arm32 (@bench arm32 0 0 0 0)))
     = [PinModeOutput 2; DigitalWrite 2 LOW].
Proof.
  assert (H1 : 0 <= @A1 arm32 < 65536) by (split; [discriminate | reflexivity]).
  assert (H3 : 0 <= @A3 arm32 < 65536) by (split; [discriminate | reflexivity]).
  assert (H6 : 0 <= @A6 arm32 < 65536) by (split; [discriminate | reflexivity]).
  pose proof (@decider_wiring arm32 (@bench arm32 0 0 0 0) H1 H3 H6)
    as (Hsm & _ & _ & _ & _ & _ & Hout).
  split; [repeat split; first [apply H1 | apply H3 | apply H6]|].
  split; [exact Hsm | exact Hout].
Defined.

(** ** Integer mapping of a reading *)





(** ** The report of [PrintAll] *)

Lemma pump_text_inj (a b : bool) :
  (if a then " On" else "Off")%string = (if b then " On" else "Off")%string ->
  a = b.
Proof. destruct a, b; intros E; try reflexivity; discriminate E. Qed.

(** X13. The report of [PrintAll] tells the decision: two reports that
    are equal item by item come from boards on which [DecideAction] decides
    alike, the three sensors being in the same states and the pump in the
    same state. *)
Theorem report_determines_decision `{Platform}
  (ad1 ad2 : ActionDecider) (hw1 hw2 : Hardware) :
  PrintAll ad1 hw1 = PrintAll ad2 hw2 ->
  SoilMoistureSensor.get_state hw1 (sm ad1)
  = SoilMoistureSensor.get_state hw2 (sm ad2)
  /\ WaterLevelSensor.get_state hw1 (wl ad1)
     = WaterLevelSensor.get_state hw2 (wl ad2)
  /\ WaterDetectionSensor.get_state hw1 (wd ad1)
     = WaterDetectionSensor.get_state hw2 (wd ad2)
  /\ is_on (pd ad1) = is_on (pd ad2)
  /\ DecideAction ad1 hw1 = DecideAction ad2 hw2.
Proof.
  unfold PrintAll, SoilMoistureSensor_SerialPrint,
    WaterLevelSensor_SerialPrint, WaterDetectionSensor_SerialPrint,
    print_reading. cbv zeta. cbn [app].
  intros E. injection E as _ Esm _ Ewl _ Ewd Epump.
  apply state_to_str_inj in Esm, Ewl, Ewd. apply pump_text_inj in Epump.
  unfold DecideAction. cbv zeta. rewrite Esm, Ewl, Ewd.
  repeat split; assumption.
Qed.

Lemma report_determines_decision_witness :
  @PrintAll avr (@the_decider avr) (@bench avr 600 0 500 10)
  = @PrintAll avr (@the_decider avr) (@bench avr 600 1023 500 10)
  /\ @DecideAction avr (@the_decider avr) (@bench avr 600 0 500 10)
     = @DecideAction avr (@the_decider avr) (@bench avr 600 1023 500 10).
Proof.
  assert (E : @PrintAll avr (@the_decider avr) (@bench avr 600 0 500 10)
              = @PrintAll avr (@the_decider avr) (@bench avr 600 1023 500 10))
    by reflexivity.
  split; [exact E|].
  exact (proj2 (proj2 (proj2 (proj2
           (@report_determines_decision avr _ _ _ _ E))))).
Defined.

(** ** The passes of [loop] *)












(** ** Runs of the sketch *)



(** ** A run on the sample board *)

Example sketch_two_passes :
  let run :=
    @sketch avr
      [analogRead (@bench avr 700 0 300 900);
       analogRead (@bench avr 300 0 300 10)]
      (@bench avr 0 0 0 0) in
  writes_to 2 (snd run) = [LOW; HIGH; LOW; LOW]
  /\ delays (snd run) = [500; 10000; 10000; 5000]
  /\ outputs (snd (fst run))
     = [PinModeOutput 2; DigitalWrite 2 LOW; DigitalWrite 2 HIGH;
        DigitalWrite 2 LOW; DigitalWrite 2 LOW]
  /\ hd (Delay 0) (snd run) = Command (PinModeOutput 2).
Proof. vm_compute. repeat split. Qed.

Example report_on_sample :
  @PrintAll avr (@the_decider avr) (@bench avr 700 0 300 900)
  = [Text ("Soil Moisture" ++ LF); Text "Raw sensor value: "; Number 700;
     Text LF; Text "State: "; Text "TOO_LOW"; Text LF;
     Text ("Water level" ++ LF); Text "Raw sensor value: "; Number 300;
     Text LF; Text "State: "; Text "DANGER_LOW"; Text LF;
     Text ("Water detection" ++ LF); Text "Raw sensor value: "; Number 900;
     Text LF; Text "State: "; Text "TOO_HIGH"; Text LF;
     Text (LF ++ LF ++ "Pump is: "); Text "Off"; Text (LF ++ LF ++ LF)].
Proof. reflexivity. Qed.
